(** * ALTO Bot (server.js): the per-user session state machine

    A shallow embedding of the class [AltoBot] of [server.js]: the message
    handler, the captcha verification, the guessing game, the daily claim,
    the task catalog with its admin commands, and the deadline callback that
    [handleSelesai] schedules with [setTimeout].

    Modelling conventions.
    - JavaScript numbers that the program only ever adds and compares
      (balances, ids, rewards) are integers [Z]; rounding beyond 2^53 is not
      modelled.
    - Strings are sequences of 8-bit code units.  Case mapping acts on the
      ASCII letters and [trim] strips the ASCII members of the ECMAScript
      white-space class (TAB, LF, VT, FF, CR, SP); other code units are
      neither letters nor white space.
    - [this.users] is a finite map from sender ids to records.  The [user]
      object that the handlers mutate is the one stored under [message.from],
      so a handler that mutates it writes the new record back under that key.
    - Each handler performs all its mutations before its first [await] (the
      only exception is the creation of a new record, which is followed by an
      awaited write and then by the rest of [handleMessage]); one inbound
      message is therefore one step of the model.
    - Replies, store writes and uncaught exceptions are collected in a list
      of effects, in program order.
    - The collaborators are inputs of a step: the calendar date, the two
      draws of [Math.random] and the outcome of the AI call.
    - The repository holds a second copy of the file with the AI client
      replaced.  Its session logic is the same; where the copies differ
      (the extra store write inside the branches of [verifyCaptcha], the
      media commands, the timer kept as an object) the model follows
      [server.js]. *)

From Stdlib Require Import ZArith QArith Qround String Ascii List Bool Lia.
From stdpp Require Import gmap strings list.
Import ListNotations.

Close Scope Q_scope.
Local Open Scope string_scope.
Local Open Scope Z_scope.

(** ** Strings as the program uses them *)

Module Js.

(** White space stripped by [String.prototype.trim] and skipped by
    [parseInt] (ASCII part). *)
Definition isWhiteSpace (c : ascii) : bool :=
  let n := nat_of_ascii c in
  Nat.eqb n 32 || (Nat.leb 9 n && Nat.leb n 13).

Definition upperChar (c : ascii) : ascii :=
  let n := nat_of_ascii c in
  if Nat.leb 97 n && Nat.leb n 122 then ascii_of_nat (n - 32) else c.

Definition lowerChar (c : ascii) : ascii :=
  let n := nat_of_ascii c in
  if Nat.leb 65 n && Nat.leb n 90 then ascii_of_nat (n + 32) else c.

Fixpoint mapChars (f : ascii -> ascii) (s : string) : string :=
  match s with
  | EmptyString => EmptyString
  | String c r => String (f c) (mapChars f r)
  end.

Definition toUpperCase : string -> string := mapChars upperChar.
Definition toLowerCase : string -> string := mapChars lowerChar.

Fixpoint trimStart (s : string) : string :=
  match s with
  | EmptyString => EmptyString
  | String c r => if isWhiteSpace c then trimStart r else s
  end.

Fixpoint trimEnd (s : string) : string :=
  match s with
  | EmptyString => EmptyString
  | String c r =>
      match trimEnd r with
      | EmptyString => if isWhiteSpace c then EmptyString else String c EmptyString
      | r' => String c r'
      end
  end.

Definition trim (s : string) : string := trimEnd (trimStart s).

(** [s.split(' ')]: never empty, keeps empty fields. *)
Fixpoint split (s : string) : list string :=
  match s with
  | EmptyString => [EmptyString]
  | String c r =>
      if Ascii.eqb c " "%char then EmptyString :: split r
      else match split r with
           | h :: t => String c h :: t
           | [] => [String c EmptyString]
           end
  end.

(** [l.join(' ')] *)
Definition join (l : list string) : string := String.concat " " l.

(** [l.slice(n)] *)
Definition slice {A} (n : nat) (l : list A) : list A := skipn n l.

Definition startsWith (s p : string) : bool := String.prefix p s.

Definition endsWith (s p : string) : bool :=
  String.prefix (String.rev p) (String.rev s).

(** [s.substring(i, j)] for [i <= j]. *)
Definition substring (i j : nat) (s : string) : string :=
  String.substring i (j - i) s.

(** Value of a digit in the given radix. *)
Definition digitValue (radix : Z) (c : ascii) : option Z :=
  let n := Z.of_nat (nat_of_ascii c) in
  let v :=
    if (48 <=? n) && (n <=? 57) then Some (n - 48)
    else if (97 <=? n) && (n <=? 122) then Some (n - 87)
    else if (65 <=? n) && (n <=? 90) then Some (n - 55)
    else None in
  match v with
  | Some d => if d <? radix then Some d else None
  | None => None
  end.

(** Longest prefix of digits, read left to right; [acc] is [None] until a
    digit has been seen. *)
Fixpoint digits (radix : Z) (acc : option Z) (s : string) : option Z :=
  match s with
  | EmptyString => acc
  | String c r =>
      match digitValue radix c with
      | Some d =>
          digits radix (Some (match acc with Some a => a * radix + d | None => d end)) r
      | None => acc
      end
  end.

(** [parseInt(s)] without a radix argument; [None] is [NaN].  Leading
    white space is skipped, one sign is accepted, a [0x]/[0X] prefix
    selects radix 16, and parsing stops at the first non-digit. *)
Definition parseIntStr (s : string) : option Z :=
  let s1 := trimStart s in
  let '(sign, s2) :=
    match s1 with
    | String "-" r => (-1, r)
    | String "+" r => (1, r)
    | _ => (1, s1)
    end in
  let '(radix, s3) :=
    match s2 with
    | String "0" (String "x" r) => (16, r)
    | String "0" (String "X" r) => (16, r)
    | _ => (10, s2)
    end in
  match digits radix None s3 with
  | Some n => Some (sign * n)
  | None => None
  end.

(** [parseInt(x)] where [x] may be [undefined] (a missing argument):
    the string ["undefined"] holds no digit. *)
Definition parseInt (x : option string) : option Z :=
  match x with
  | Some s => parseIntStr s
  | None => None
  end.

End Js.

(** ** Data model *)

(** An entry of [this.tasks]. *)
Record Task := {
  id : Z;
  bonus : Z;
  duration : Z;
  description : string
}.

(** The [type] field of a waiting [captchaState]. *)
Inductive CaptchaType := TypeClaim | TypeTask.

(** [user.captchaState].  The object is either [{ isWaiting: false }] or
    carries [type], [answer] and, for a task, [task] and [timerId]; a field
    the object does not have is [None].  The [task] field refers to an entry
    of [this.tasks]; entries are never mutated in place (only pushed and
    spliced), so the reference is modelled by its value. *)
Record CaptchaState := {
  isWaiting : bool;
  type : option CaptchaType;
  task : option Task;
  answer : option string;
  timerId : option positive
}.

(** An entry of [this.users]. *)
Record User := {
  balance : Z;
  isBlocked : bool;
  lastLogin : string;
  claimedDailyBonus : bool;
  completedTasksToday : list Z;
  isAdmin : bool;
  captchaState : CaptchaState;
  inGame : bool;
  gameAnswer : Z
}.

Record DailyBonus := { min : Z; max : Z }.

Record Config := {
  adminPassword : string;
  dailyBonus : DailyBonus
}.

(** A callback scheduled by [setTimeout] in [handleSelesai]: the closure
    captures [message.from] and [taskId]; [delayMs] is the delay it was
    scheduled with. *)
Record Timer := {
  timerFrom : string;
  timerTaskId : Z;
  delayMs : Z
}.

(** The bot: the fields of [AltoBot] that the handlers read and write, and
    the timers of the event loop that are still pending.  Timer ids are the
    positive numbers that [timer[Symbol.toPrimitive]()] returns. *)
Record AltoBot := {
  users : gmap string User;
  tasks : list Task;
  config : Config;
  userChats : gset string;
  timers : gmap positive Timer;
  nextTimer : positive
}.

(** The texts sent with [message.reply], by kind, with the values that are
    interpolated into them. *)
Inductive ReplyText :=
| RWelcome                                   (* "Halo! Selamat datang di ALTO Bot ..." *)
| RMenu (admin : bool)                       (* showMenu *)
| RSaldo (bal : Z)                           (* "Saldo Anda saat ini adalah: ..." *)
| ROwner
| RChatCleared
| RAlreadyClaimed                            (* "Anda sudah mengklaim bonus harian hari ini ..." *)
| RCaptchaClaim (token : string)             (* "Untuk verifikasi, silakan ketik teks berikut" *)
| RNoAvailableTasks
| RAvailableTasks (ts : list Task)
| RInvalidTaskId                             (* "ID tugas tidak valid ..." *)
| RTaskNotFound                              (* "Tugas dengan ID tersebut tidak ditemukan." *)
| RTaskAlreadyDone                           (* "Anda sudah menyelesaikan tugas ini hari ini." *)
| RCaptchaTask (minutes : Z) (token : string)
| RTimeout                                   (* "Waktu habis! Penyelesaian tugas dibatalkan." *)
| RCaptchaOk                                 (* "Captcha benar!" *)
| RTaskReward (reward bal : Z)
| RClaimReward (reward bal : Z)
| RCaptchaWrong                              (* "Captcha salah. Proses dibatalkan." *)
| RGameStart
| RGameExit                                  (* "Anda telah keluar dari game." *)
| RGameInvalid                               (* "Masukkan angka yang valid!" *)
| RGameLow                                   (* "Terlalu rendah! Coba lagi." *)
| RGameHigh                                  (* "Terlalu tinggi! Coba lagi." *)
| RGameWin (target reward bal : Z)
| RAdminOnly                                 (* "Perintah ini hanya untuk admin." *)
| RAdminLogin
| RAdminWrongPassword
| RUserList (us : gmap string User)
| RUserBlocked (target : string)
| RUserUnblocked (target : string)
| RUserDeleted (target : string)
| RUserNotFound (target : string)
| RAddTugasUsage                             (* "Penggunaan salah. Contoh: /addtugas 150 5 ..." *)
| RTaskAdded (newId : Z)
| RNoTasks
| RAllTasks (ts : list Task)
| RTaskDeleted (taskId : Z)
| RDeleteTaskNotFound
| RSetBonusUsage
| RBonusSet (lo hi : Z)
| RImageUsage
| RImageWait
| RImageFailed
| RVideoUsage
| RVideoWait
| RVideoLink (link : string)
| RVideoNoLink
| RVideoFailed
| RAiText (text : string)
| RAiFailed
| RAiUnknownCommand (text : string).

(** What a handler does to the outside, in program order. *)
Inductive Effect :=
| Reply (to : string) (r : ReplyText)        (* message.reply(...) *)
| SendMedia (to : string) (bytes : string)   (* this.client.sendMessage(from, media, ...) *)
| WriteUsers (snapshot : gmap string User)   (* Storage.write(USERS_DB_PATH, this.users) *)
| WriteTasks (snapshot : list Task)          (* Storage.write(TASKS_DB_PATH, this.tasks) *)
| WriteConfig (snapshot : Config)            (* Storage.write(CONFIG_PATH, this.config) *)
| Throw.                                     (* an exception that no handler catches *)

(** Outcome of a call to the AI collaborator. *)
Inductive AiOutcome :=
| AiResult (text : string)   (* generated text, image bytes or download link *)
| AiNothing                  (* the call returned without the expected field *)
| AiError.                   (* the call threw *)

(** The inputs of one handled message that the program obtains from its
    environment. *)
Record Env := {
  today : string;      (* new Date().toDateString() *)
  random36 : string;   (* Math.random().toString(36) *)
  random : Q;          (* Math.random(), in [0, 1) *)
  ai : AiOutcome
}.

Definition Result : Type := AltoBot * list Effect.

(** ** Field updates *)

Definition setUsers (m : gmap string User) (b : AltoBot) : AltoBot :=
  {| users := m; tasks := tasks b; config := config b;
     userChats := userChats b; timers := timers b; nextTimer := nextTimer b |}.

Definition setTasks (ts : list Task) (b : AltoBot) : AltoBot :=
  {| users := users b; tasks := ts; config := config b;
     userChats := userChats b; timers := timers b; nextTimer := nextTimer b |}.

Definition setConfig (c : Config) (b : AltoBot) : AltoBot :=
  {| users := users b; tasks := tasks b; config := c;
     userChats := userChats b; timers := timers b; nextTimer := nextTimer b |}.

Definition setUserChats (s : gset string) (b : AltoBot) : AltoBot :=
  {| users := users b; tasks := tasks b; config := config b;
     userChats := s; timers := timers b; nextTimer := nextTimer b |}.

Definition setTimers (t : gmap positive Timer) (n : positive) (b : AltoBot) : AltoBot :=
  {| users := users b; tasks := tasks b; config := config b;
     userChats := userChats b; timers := t; nextTimer := n |}.

(** [this.users[from] = u], also the write-back of a mutated [user]. *)
Definition setUser (from : string) (u : User) (b : AltoBot) : AltoBot :=
  setUsers (<[from := u]> (users b)) b.

Definition setBalance (x : Z) (u : User) : User :=
  {| balance := x; isBlocked := isBlocked u; lastLogin := lastLogin u;
     claimedDailyBonus := claimedDailyBonus u;
     completedTasksToday := completedTasksToday u; isAdmin := isAdmin u;
     captchaState := captchaState u; inGame := inGame u; gameAnswer := gameAnswer u |}.

Definition setIsBlocked (x : bool) (u : User) : User :=
  {| balance := balance u; isBlocked := x; lastLogin := lastLogin u;
     claimedDailyBonus := claimedDailyBonus u;
     completedTasksToday := completedTasksToday u; isAdmin := isAdmin u;
     captchaState := captchaState u; inGame := inGame u; gameAnswer := gameAnswer u |}.

Definition setClaimedDailyBonus (x : bool) (u : User) : User :=
  {| balance := balance u; isBlocked := isBlocked u; lastLogin := lastLogin u;
     claimedDailyBonus := x;
     completedTasksToday := completedTasksToday u; isAdmin := isAdmin u;
     captchaState := captchaState u; inGame := inGame u; gameAnswer := gameAnswer u |}.

Definition setCompletedTasksToday (x : list Z) (u : User) : User :=
  {| balance := balance u; isBlocked := isBlocked u; lastLogin := lastLogin u;
     claimedDailyBonus := claimedDailyBonus u;
     completedTasksToday := x; isAdmin := isAdmin u;
     captchaState := captchaState u; inGame := inGame u; gameAnswer := gameAnswer u |}.

Definition setIsAdmin (x : bool) (u : User) : User :=
  {| balance := balance u; isBlocked := isBlocked u; lastLogin := lastLogin u;
     claimedDailyBonus := claimedDailyBonus u;
     completedTasksToday := completedTasksToday u; isAdmin := x;
     captchaState := captchaState u; inGame := inGame u; gameAnswer := gameAnswer u |}.

Definition setCaptchaState (x : CaptchaState) (u : User) : User :=
  {| balance := balance u; isBlocked := isBlocked u; lastLogin := lastLogin u;
     claimedDailyBonus := claimedDailyBonus u;
     completedTasksToday := completedTasksToday u; isAdmin := isAdmin u;
     captchaState := x; inGame := inGame u; gameAnswer := gameAnswer u |}.

Definition setGame (playing : bool) (target : Z) (u : User) : User :=
  {| balance := balance u; isBlocked := isBlocked u; lastLogin := lastLogin u;
     claimedDailyBonus := claimedDailyBonus u;
     completedTasksToday := completedTasksToday u; isAdmin := isAdmin u;
     captchaState := captchaState u; inGame := playing; gameAnswer := target |}.

(** ** The handlers of [AltoBot] *)

(** [{ isWaiting: false }] *)
Definition notWaiting : CaptchaState :=
  {| isWaiting := false; type := None; task := None; answer := None; timerId := None |}.

(** The record created for an unknown sender. *)
Definition newUser (date : string) : User :=
  {| balance := 0; isBlocked := false; lastLogin := date;
     claimedDailyBonus := false; completedTasksToday := []; isAdmin := false;
     captchaState := notWaiting; inGame := false; gameAnswer := 0 |}.

(** "Reset data harian" in [handleMessage]. *)
Definition dailyReset (date : string) (u : User) : User :=
  {| balance := balance u; isBlocked := isBlocked u; lastLogin := date;
     claimedDailyBonus := false; completedTasksToday := []; isAdmin := isAdmin u;
     captchaState := captchaState u; inGame := inGame u; gameAnswer := gameAnswer u |}.

(** [Math.floor(Math.random() * n)] *)
Definition randomBelow (r : Q) (n : Z) : Z := Qfloor (r * inject_Z n).

(** [generateCaptcha(length = 6)] *)
Definition generateCaptcha (length : nat) (r36 : string) : string :=
  Js.toUpperCase (Js.substring 2 (2 + length) r36).

(** [l.includes(x)] *)
Definition includes (x : Z) (l : list Z) : bool := existsb (Z.eqb x) l.

(** [this.tasks.find(t => t.id === taskId)] *)
Definition findTask (taskId : Z) (ts : list Task) : option Task :=
  List.find (fun t => id t =? taskId) ts.

(** [findIndex] followed by [splice(taskIndex, 1)]: [None] when
    [findIndex] returns -1. *)
Fixpoint spliceTask (taskId : Z) (ts : list Task) : option (list Task) :=
  match ts with
  | [] => None
  | t :: r =>
      if id t =? taskId then Some r
      else match spliceTask taskId r with
           | Some r' => Some (t :: r')
           | None => None
           end
  end.

(** [this.tasks.length > 0 ? Math.max(...this.tasks.map(t => t.id)) + 1 : 1] *)
Definition newTaskId (ts : list Task) : Z :=
  match List.map id ts with
  | [] => 1
  | x :: xs => fold_left Z.max xs x + 1
  end.

Definition showMenu (from : string) (u : User) : list Effect :=
  [Reply from (RMenu (isAdmin u))].

Definition startGame (from : string) (u : User) (e : Env) (b : AltoBot) : Result :=
  let u' := setGame true (randomBelow (random e) 100 + 1) u in
  let b' := setUser from u' b in
  (b', [WriteUsers (users b'); Reply from RGameStart]).

Definition handleGameInput (from : string) (u : User) (input : string)
    (b : AltoBot) : Result :=
  if String.eqb (Js.trim (Js.toLowerCase input)) "/exitgame" then
    let u' := setGame false (gameAnswer u) u in
    let b' := setUser from u' b in
    (b', ([WriteUsers (users b'); Reply from RGameExit] ++ showMenu from u')%list)
  else
    match Js.parseIntStr input with
    | None => (b, [Reply from RGameInvalid])
    | Some guess =>
        if guess <? gameAnswer u then (b, [Reply from RGameLow])
        else if gameAnswer u <? guess then (b, [Reply from RGameHigh])
        else
          let reward := 250 in
          let u' := setGame false (gameAnswer u) (setBalance (balance u + reward) u) in
          let b' := setUser from u' b in
          (b', ([WriteUsers (users b');
                 Reply from (RGameWin (gameAnswer u') reward (balance u'))]
                ++ showMenu from u')%list)
    end.

Definition handleClaim (from : string) (u : User) (e : Env) (b : AltoBot) : Result :=
  if claimedDailyBonus u then (b, [Reply from RAlreadyClaimed])
  else
    let captchaText := generateCaptcha 6 (random36 e) in
    let u' := setCaptchaState
                {| isWaiting := true; type := Some TypeClaim; task := None;
                   answer := Some captchaText; timerId := None |} u in
    let b' := setUser from u' b in
    (b', [WriteUsers (users b'); Reply from (RCaptchaClaim captchaText)]).

Definition handleListAvailableTasks (from : string) (u : User) (b : AltoBot) : Result :=
  let availableTasks :=
    List.filter (fun t => negb (includes (id t) (completedTasksToday u))) (tasks b) in
  match availableTasks with
  | [] => (b, [Reply from RNoAvailableTasks])
  | _ => (b, [Reply from (RAvailableTasks availableTasks)])
  end.

(** The callback passed to [setTimeout] in [handleSelesai]. *)
Definition timeoutCallback (from : string) (taskId : Z) (b : AltoBot) : Result :=
  match users b !! from with
  | Some currentUserState =>
      let cs := captchaState currentUserState in
      if isWaiting cs &&
         match task cs with Some t => id t =? taskId | None => false end
      then
        let b' := setUser from (setCaptchaState notWaiting currentUserState) b in
        (b', [WriteUsers (users b'); Reply from RTimeout])
      else (b, [])
  | None => (b, [])
  end.

Definition handleSelesai (from : string) (u : User) (taskIdStr : option string)
    (e : Env) (b : AltoBot) : Result :=
  match Js.parseInt taskIdStr with
  | None => (b, [Reply from RInvalidTaskId])
  | Some taskId =>
      match findTask taskId (tasks b) with
      | None => (b, [Reply from RTaskNotFound])
      | Some t =>
          if includes taskId (completedTasksToday u) then
            (b, [Reply from RTaskAlreadyDone])
          else
            let captchaText := generateCaptcha 6 (random36 e) in
            let timer := nextTimer b in
            let u' := setCaptchaState
                        {| isWaiting := true; type := Some TypeTask; task := Some t;
                           answer := Some captchaText; timerId := Some timer |} u in
            let b' :=
              setUser from u'
                (setTimers
                   (<[timer := {| timerFrom := from; timerTaskId := taskId;
                                  delayMs := duration t * 60 * 1000 |}]> (timers b))
                   (Pos.succ timer) b) in
            (b', [WriteUsers (users b');
                  Reply from (RCaptchaTask (duration t) captchaText)])
      end
  end.

(** [if (timerId) clearTimeout(timerId)] *)
Definition clearTimeout (timerId : option positive) (b : AltoBot) : AltoBot :=
  match timerId with
  | Some t => setTimers (delete t (timers b)) (nextTimer b) b
  | None => b
  end.

Definition verifyCaptcha (from : string) (u : User) (userInput : string)
    (e : Env) (b : AltoBot) : Result :=
  let cs := captchaState u in
  let b0 := clearTimeout (timerId cs) b in
  let u0 := setCaptchaState notWaiting u in
  let b1 := setUser from u0 b0 in
  let matches :=
    match answer cs with
    | Some a => String.eqb (Js.toUpperCase (Js.trim userInput)) a
    | None => false
    end in
  if matches then
    match type cs with
    | Some TypeTask =>
        match task cs with
        | Some t =>
            let u1 := setCompletedTasksToday (completedTasksToday u0 ++ [id t])%list
                        (setBalance (balance u0 + bonus t) u0) in
            let b2 := setUser from u1 b1 in
            (b2, ([Reply from RCaptchaOk; WriteUsers (users b2);
                   Reply from (RTaskReward (bonus t) (balance u1));
                   WriteUsers (users b2)] ++ showMenu from u1)%list)
        | None => (b1, [Reply from RCaptchaOk; Throw])
        end
    | Some TypeClaim =>
        let lo := min (dailyBonus (config b)) in
        let hi := max (dailyBonus (config b)) in
        let reward := randomBelow (random e) (hi - lo + 1) + lo in
        let u1 := setClaimedDailyBonus true (setBalance (balance u0 + reward) u0) in
        let b2 := setUser from u1 b1 in
        (b2, ([Reply from RCaptchaOk; WriteUsers (users b2);
               Reply from (RClaimReward reward (balance u1));
               WriteUsers (users b2)] ++ showMenu from u1)%list)
    | None =>
        (b1, ([Reply from RCaptchaOk; WriteUsers (users b1)] ++ showMenu from u0)%list)
    end
  else
    (b1, ([Reply from RCaptchaWrong; WriteUsers (users b1)] ++ showMenu from u0)%list).

(** *** Admin commands *)

(** [checkAdmin]: the refusal is sent when the result is [false]. *)
Definition checkAdmin (from : string) (u : User) : bool * list Effect :=
  if isAdmin u then (true, []) else (false, [Reply from RAdminOnly]).

Definition handleLoginAdmin (from : string) (u : User) (password : option string)
    (b : AltoBot) : Result :=
  if match password with
     | Some p => String.eqb p (adminPassword (config b))
     | None => false
     end
  then
    let b' := setUser from (setIsAdmin true u) b in
    (b', [WriteUsers (users b'); Reply from RAdminLogin])
  else (b, [Reply from RAdminWrongPassword]).

Definition handleListUsers (from : string) (u : User) (b : AltoBot) : Result :=
  match checkAdmin from u with
  | (false, eff) => (b, eff)
  | (true, _) => (b, [Reply from (RUserList (users b))])
  end.

(** [x.endsWith('@c.us') ? x : `${x}@c.us`] *)
Definition targetIdOf (x : string) : string :=
  if Js.endsWith x "@c.us" then x else String.append x "@c.us".

(** [handleBlockUser] and [handleUnblockUser] differ in the flag they store
    and in the confirmation; a missing argument makes [endsWith] throw. *)
Definition handleSetBlocked (flag : bool) (from : string) (u : User)
    (arg : option string) (b : AltoBot) : Result :=
  match checkAdmin from u with
  | (false, eff) => (b, eff)
  | (true, _) =>
      match arg with
      | None => (b, [Throw])
      | Some x =>
          let targetId := targetIdOf x in
          match users b !! targetId with
          | Some target =>
              let b' := setUser targetId (setIsBlocked flag target) b in
              (b', [WriteUsers (users b');
                    Reply from (if flag then RUserBlocked targetId
                                else RUserUnblocked targetId)])
          | None => (b, [Reply from (RUserNotFound targetId)])
          end
      end
  end.

Definition handleBlockUser := handleSetBlocked true.
Definition handleUnblockUser := handleSetBlocked false.

Definition handleDeleteUser (from : string) (u : User) (arg : option string)
    (b : AltoBot) : Result :=
  match checkAdmin from u with
  | (false, eff) => (b, eff)
  | (true, _) =>
      match arg with
      | None => (b, [Throw])
      | Some x =>
          let targetId := targetIdOf x in
          match users b !! targetId with
          | Some _ =>
              let b' := setUsers (delete targetId (users b)) b in
              (b', [WriteUsers (users b'); Reply from (RUserDeleted targetId)])
          | None => (b, [Reply from (RUserNotFound targetId)])
          end
      end
  end.

Definition handleAddTugas (from : string) (u : User)
    (bonusStr durationStr : option string) (desc : string) (b : AltoBot) : Result :=
  match checkAdmin from u with
  | (false, eff) => (b, eff)
  | (true, _) =>
      match Js.parseInt bonusStr, Js.parseInt durationStr with
      | Some bonus', Some duration' =>
          if String.eqb desc EmptyString || (duration' <=? 0) then
            (b, [Reply from RAddTugasUsage])
          else
            let newId := newTaskId (tasks b) in
            let b' :=
              setTasks (tasks b ++ [{| id := newId; bonus := bonus';
                                       duration := duration';
                                       description := desc |}])%list b in
            (b', [WriteTasks (tasks b'); Reply from (RTaskAdded newId)])
      | _, _ => (b, [Reply from RAddTugasUsage])
      end
  end.

Definition handleListAllTasks (from : string) (u : User) (b : AltoBot) : Result :=
  match checkAdmin from u with
  | (false, eff) => (b, eff)
  | (true, _) =>
      match tasks b with
      | [] => (b, [Reply from RNoTasks])
      | ts => (b, [Reply from (RAllTasks ts)])
      end
  end.

Definition handleDeleteTask (from : string) (u : User) (taskIdStr : option string)
    (b : AltoBot) : Result :=
  match checkAdmin from u with
  | (false, eff) => (b, eff)
  | (true, _) =>
      match Js.parseInt taskIdStr with
      | Some taskId =>
          match spliceTask taskId (tasks b) with
          | Some ts =>
              let b' := setTasks ts b in
              (b', [WriteTasks (tasks b'); Reply from (RTaskDeleted taskId)])
          | None => (b, [Reply from RDeleteTaskNotFound])
          end
      | None => (b, [Reply from RDeleteTaskNotFound])
      end
  end.

Definition handleSetBonus (from : string) (u : User) (minStr maxStr : option string)
    (b : AltoBot) : Result :=
  match checkAdmin from u with
  | (false, eff) => (b, eff)
  | (true, _) =>
      match Js.parseInt minStr, Js.parseInt maxStr with
      | Some lo, Some hi =>
          if hi <? lo then (b, [Reply from RSetBonusUsage])
          else
            let c := {| adminPassword := adminPassword (config b);
                        dailyBonus := {| min := lo; max := hi |} |} in
            let b' := setConfig c b in
            (b', [WriteConfig (config b'); Reply from (RBonusSet lo hi)])
      | _, _ => (b, [Reply from RSetBonusUsage])
      end
  end.

(** *** Media and conversation (the AI collaborator) *)

Definition handleImageGeneration (from : string) (prompt : string) (e : Env)
    (b : AltoBot) : Result :=
  if String.eqb prompt EmptyString then (b, [Reply from RImageUsage])
  else
    match ai e with
    | AiResult bytes => (b, [Reply from RImageWait; SendMedia from bytes])
    | _ => (b, [Reply from RImageWait; Reply from RImageFailed])
    end.

Definition handleVideoGeneration (from : string) (prompt : string) (e : Env)
    (b : AltoBot) : Result :=
  if String.eqb prompt EmptyString then (b, [Reply from RVideoUsage])
  else
    match ai e with
    | AiResult link => (b, [Reply from RVideoWait; Reply from (RVideoLink link)])
    | AiNothing => (b, [Reply from RVideoWait; Reply from RVideoNoLink])
    | AiError => (b, [Reply from RVideoWait; Reply from RVideoFailed])
    end.

(** [getAiResponse], with [getChatSession] inlined: the session is
    registered before the message is sent to the model. *)
Definition getAiResponse (from : string) (e : Env) (b : AltoBot) : Result :=
  let b' := setUserChats ({[from]} ∪ userChats b) b in
  match ai e with
  | AiResult text => (b', [Reply from (RAiText (Js.trim text))])
  | _ => (b', [Reply from RAiFailed])
  end.

(** The fallback of [handleMessage] for a command that no [case] matches;
    the call is not inside a [try]. *)
Definition unknownCommand (from : string) (e : Env) (b : AltoBot) : Result :=
  match ai e with
  | AiResult text => (b, [Reply from (RAiUnknownCommand text)])
  | _ => (b, [Throw])
  end.

(** *** Command dispatch *)

(** The [case] labels of the [switch] in [handleMessage]. *)
Inductive Command :=
| CmdMenu | CmdSaldo | CmdOwner | CmdKlaim | CmdTugas | CmdSelesai | CmdGambar
| CmdVideo | CmdGame | CmdLoginAdmin | CmdClear | CmdListUsers | CmdBlockUser
| CmdUnblockUser | CmdDeleteUser | CmdAddTugas | CmdListTugas | CmdHapusTugas
| CmdSetBonus | CmdDefault.

Definition commandTable : list (string * Command) :=
  [("/menu", CmdMenu); ("/saldo", CmdSaldo); ("/owner", CmdOwner);
   ("/klaim", CmdKlaim); ("/tugas", CmdTugas); ("/selesai", CmdSelesai);
   ("/gambar", CmdGambar); ("/video", CmdVideo); ("/game", CmdGame);
   ("/loginadmin", CmdLoginAdmin); ("/clear", CmdClear);
   ("/listusers", CmdListUsers); ("/blockuser", CmdBlockUser);
   ("/unblockuser", CmdUnblockUser); ("/deleteuser", CmdDeleteUser);
   ("/addtugas", CmdAddTugas); ("/listtugas", CmdListTugas);
   ("/hapustugas", CmdHapusTugas); ("/setbonus", CmdSetBonus)].

Definition commandOf (commandName : string) : Command :=
  match List.find (fun p => String.eqb (fst p) commandName) commandTable with
  | Some p => snd p
  | None => CmdDefault
  end.

(** The part of [handleMessage] that runs when the sender is neither
    answering a captcha nor playing. *)
Definition dispatch (from : string) (u : User) (body : string) (e : Env)
    (b : AltoBot) : Result :=
  let command := Js.trim (Js.toLowerCase body) in
  let args := Js.slice 1 (Js.split (Js.trim body)) in
  let commandName := hd EmptyString (Js.split command) in
  if negb (Js.startsWith command "/") then getAiResponse from e b
  else
    match commandOf commandName with
    | CmdMenu => (b, showMenu from u)
    | CmdSaldo => (b, [Reply from (RSaldo (balance u))])
    | CmdOwner => (b, [Reply from ROwner])
    | CmdKlaim => handleClaim from u e b
    | CmdTugas => handleListAvailableTasks from u b
    | CmdSelesai => handleSelesai from u (nth_error args 0) e b
    | CmdGambar => handleImageGeneration from (Js.join args) e b
    | CmdVideo => handleVideoGeneration from (Js.join args) e b
    | CmdGame => startGame from u e b
    | CmdLoginAdmin => handleLoginAdmin from u (nth_error args 0) b
    | CmdClear =>
        (setUserChats (userChats b ∖ {[from]}) b, [Reply from RChatCleared])
    | CmdListUsers => handleListUsers from u b
    | CmdBlockUser => handleBlockUser from u (nth_error args 0) b
    | CmdUnblockUser => handleUnblockUser from u (nth_error args 0) b
    | CmdDeleteUser => handleDeleteUser from u (nth_error args 0) b
    | CmdAddTugas =>
        handleAddTugas from u (nth_error args 0) (nth_error args 1)
          (Js.join (Js.slice 2 args)) b
    | CmdListTugas => handleListAllTasks from u b
    | CmdHapusTugas => handleDeleteTask from u (nth_error args 0) b
    | CmdSetBonus => handleSetBonus from u (nth_error args 0) (nth_error args 1) b
    | CmdDefault => unknownCommand from e b
    end.

(** "Logika State (Captcha & Game)" and what follows it in
    [handleMessage]: the captcha first, then the game, then commands. *)
Definition handleState (from : string) (u : User) (body : string) (e : Env)
    (b : AltoBot) : Result :=
  if isWaiting (captchaState u) then verifyCaptcha from u body e b
  else if inGame u then handleGameInput from u body b
  else dispatch from u body e b.

(** [handleMessage(message)] with [message.from] and [message.body]. *)
Definition handleMessage (from body : string) (e : Env) (b : AltoBot) : Result :=
  let '(u, b0, eff0) :=
    match users b !! from with
    | Some u => (u, b, [])
    | None =>
        let u := newUser (today e) in
        let b' := setUser from u b in
        (u, b', [WriteUsers (users b'); Reply from RWelcome])
    end in
  if isBlocked u then (b0, eff0)
  else
    let '(u1, b1) :=
      if String.eqb (lastLogin u) (today e) then (u, b0)
      else
        let u' := dailyReset (today e) u in
        (u', setUser from u' b0) in
    let '(b2, eff) := handleState from u1 body e b1 in
    (b2, (eff0 ++ eff)%list).

(** *** The event loop *)

(** A pending timer fires: it leaves the timer table and its callback runs.
    A timer that is not pending (never scheduled, already fired, or
    cancelled by [clearTimeout]) does not fire. *)
Definition fireTimer (t : positive) (b : AltoBot) : Result :=
  match timers b !! t with
  | Some tm =>
      timeoutCallback (timerFrom tm) (timerTaskId tm)
        (setTimers (delete t (timers b)) (nextTimer b) b)
  | None => (b, [])
  end.

(** The events the bot reacts to. *)
Inductive Event :=
| Message (from body : string) (e : Env)
| TimerFires (t : positive).

Definition step (ev : Event) (b : AltoBot) : Result :=
  match ev with
  | Message from body e => handleMessage from body e b
  | TimerFires t => fireTimer t b
  end.

Fixpoint run (evs : list Event) (b : AltoBot) : Result :=
  match evs with
  | [] => (b, [])
  | ev :: rest =>
      let '(b1, eff1) := step ev b in
      let '(b2, eff2) := run rest b1 in
      (b2, (eff1 ++ eff2)%list)
  end.

(** [loadData] when no file exists yet, with an empty event loop. *)
Definition initialBot : AltoBot :=
  {| users := ∅; tasks := [];
     config := {| adminPassword := "admin123";
                  dailyBonus := {| min := 100; max := 500 |} |};
     userChats := ∅; timers := ∅; nextTimer := 1%positive |}.

(** ** The session state machine as the specification reads the record *)

Inductive Mode := Idle | AwaitingVerification | InGame.

(** A user awaits verification when [captchaState.isWaiting] is set, plays
    when [inGame] is set, and is idle when neither flag is set. *)
Definition inMode (m : Mode) (u : User) : bool :=
  match m with
  | AwaitingVerification => isWaiting (captchaState u)
  | InGame => inGame u
  | Idle => negb (isWaiting (captchaState u)) && negb (inGame u)
  end.

(** The challenge a record carries: the payload of [captchaState]. *)
Definition pendingChallenge (u : User)
    : option (CaptchaType * string * option Task * option positive) :=
  let cs := captchaState u in
  match type cs, answer cs with
  | Some ty, Some a => Some (ty, a, task cs, timerId cs)
  | _, _ => None
  end.


Definition present {A} (o : option A) : bool :=
  match o with Some _ => true | None => false end.

Definition isUpperCase (s : string) : bool := String.eqb (Js.toUpperCase s) s.

(** Shape of [captchaState]: the idle object has no payload; a waiting one
    carries an upper-case answer and, exactly when it is for a task, the
    task and the timer id. *)
Definition captchaOk (cs : CaptchaState) : bool :=
  if isWaiting cs then
    match type cs, answer cs with
    | Some TypeClaim, Some a =>
        isUpperCase a && negb (present (task cs)) && negb (present (timerId cs))
    | Some TypeTask, Some a =>
        isUpperCase a && present (task cs) && present (timerId cs)
    | _, _ => false
    end
  else
    negb (present (type cs)) && negb (present (task cs))
    && negb (present (answer cs)) && negb (present (timerId cs)).

Definition userOk (u : User) : bool :=
  captchaOk (captchaState u)
  && negb (isWaiting (captchaState u) && inGame u)
  && (if inGame u then (1 <=? gameAnswer u) && (gameAnswer u <=? 100) else true).

(** The invariant of the bot: every record is well formed and the bonus
    range is not empty. *)
Definition Inv (b : AltoBot) : Prop :=
  (forall k u, users b !! k = Some u -> userOk u = true)
  /\ min (dailyBonus (config b)) <= max (dailyBonus (config b)).

(** [Math.random()] returns a number in [0, 1). *)
Definition validEnv (e : Env) : Prop :=
  (0 <= random e)%Q /\ (random e < 1)%Q.

Definition validEvent (ev : Event) : Prop :=
  match ev with
  | Message _ _ e => validEnv e
  | TimerFires _ => True
  end.

Inductive reachable : AltoBot -> Prop :=
| reachable_init : reachable initialBot
| reachable_step ev b :
    reachable b -> validEvent ev -> reachable (fst (step ev b)).



(** What a handler may credit: the balance, today's completed tasks and the
    claim flag. *)
Definition ledger (u : User) : Z * list Z * bool :=
  (balance u, completedTasksToday u, claimedDailyBonus u).

(** Case-insensitive comparison of an inbound text with a token, after
    trimming the text. *)
Definition sameIgnoringCase (input token : string) : Prop :=
  Js.toLowerCase (Js.trim input) = Js.toLowerCase token.

(** A message whose first word selects the given [case] of the [switch]. *)
Definition selects (body : string) (c : Command) : Prop :=
  let command := Js.trim (Js.toLowerCase body) in
  Js.startsWith command "/" = true /\ commandOf (hd EmptyString (Js.split command)) = c.

(** ** Scenario data *)

Definition envAt (date : string) : Env :=
  {| today := date; random36 := "0.k3x9qz71m"; random := (1 # 2)%Q;
     ai := AiResult "halo" |}.

Definition day1 : Env := envAt "Mon Nov 02 2026".
Definition day2 : Env := envAt "Tue Nov 03 2026".

Definition sampleTask : Task :=
  {| id := 1; bonus := 150; duration := 5; description := "desc" |}.

(** The id that a confirmation of [handleAddTugas] announces. *)
Fixpoint announcedId (eff : list Effect) : option Z :=
  match eff with
  | [] => None
  | Reply _ (RTaskAdded n) :: _ => Some n
  | _ :: rest => announcedId rest
  end.


(** An admin creates a task on the empty catalog and deletes it. *)
Definition catalogScenario : list Event :=
  [Message "628999@c.us" "/loginadmin admin123" day1;
   Message "628999@c.us" "/addtugas 150 5 desc" day1;
   Message "628999@c.us" "/hapustugas 1" day1].

(** An admin creates a task and a sender starts its challenge. *)
Definition taskScenario : list Event :=
  [Message "628999@c.us" "/loginadmin admin123" day1;
   Message "628999@c.us" "/addtugas 150 5 desc" day1;
   Message "628111@c.us" "/selesai 1" day1].

(** A sender asks for the daily bonus. *)
Definition claimScenario : list Event :=
  [Message "628111@c.us" "/klaim" day1].

(** The token of the scenarios: [generateCaptcha] on the draw of [envAt]. *)
Definition sampleToken : string := "K3X9QZ".

(** The records of the sender in the scenarios. *)
Definition waitingOnTask : User :=
  setCaptchaState
    {| isWaiting := true; type := Some TypeTask; task := Some sampleTask;
       answer := Some sampleToken; timerId := Some 1%positive |}
    (newUser (today day1)).

Definition waitingOnClaim : User :=
  setCaptchaState
    {| isWaiting := true; type := Some TypeClaim; task := None;
       answer := Some sampleToken; timerId := None |}
    (newUser (today day1)).

Definition playing : User := setGame true 51 (newUser (today day1)).

Definition adminUser : User := setIsAdmin true (newUser (today day1)).

Definition blockedUser : User := setIsBlocked true (newUser (today day1)).

(** The replies among the effects, in order. *)
Fixpoint repliesOf (eff : list Effect) : list ReplyText :=
  match eff with
  | [] => []
  | Reply _ r :: rest => r :: repliesOf rest
  | _ :: rest => repliesOf rest
  end.

(** ** Further vocabulary for the properties of the whole bot *)

(** The [case] labels under "Perintah Admin", all guarded by [checkAdmin]. *)
Definition isAdminCommand (c : Command) : bool :=
  match c with
  | CmdListUsers | CmdBlockUser | CmdUnblockUser | CmdDeleteUser
  | CmdAddTugas | CmdListTugas | CmdHapusTugas | CmdSetBonus => true
  | _ => false
  end.

(** The commands whose handlers only read. *)
Definition isReadOnlyCommand (c : Command) : bool :=
  match c with
  | CmdMenu | CmdSaldo | CmdOwner | CmdTugas | CmdListUsers | CmdListTugas => true
  | _ => false
  end.

(** The store writes among the effects. *)
Definition isWrite (ef : Effect) : bool :=
  match ef with
  | WriteUsers _ | WriteTasks _ | WriteConfig _ => true
  | _ => false
  end.



(** A sender starts a task; the admin deletes the sender's record; the
    sender comes back and starts the same task again. *)
Definition staleTimerScenario : list Event :=
  (taskScenario ++
   [Message "628999@c.us" "/deleteuser 628111" day1;
    Message "628111@c.us" "/selesai 1" day1])%list.

(** The catalog as [handleAddTugas] and [handleDeleteTask] keep it: ids are
    positive and pairwise distinct, durations are positive and descriptions
    are not empty.  The reward is any integer. *)
Definition catalogOk (ts : list Task) : Prop :=
  List.NoDup (List.map id ts)
  /\ forall t, In t ts -> 1 <= id t /\ 0 < duration t /\ description t <> EmptyString.

(** The completed tasks of a record: no id twice, and the task of a
    challenge in flight is not among them yet. *)
Definition completedOk (u : User) : Prop :=
  List.NoDup (completedTasksToday u)
  /\ (isWaiting (captchaState u) = true ->
      forall t, task (captchaState u) = Some t ->
                ~ In (id t) (completedTasksToday u)).

(** What persists in a record while the date stays the same. *)
Definition keepsDay (u u' : User) : Prop :=
  lastLogin u' = lastLogin u
  /\ (claimedDailyBonus u = true -> claimedDailyBonus u' = true)
  /\ (forall x, In x (completedTasksToday u) -> In x (completedTasksToday u')).

(** The ways a balance can move in one event: not at all, by the game
    reward, by the bonus of the task of the challenge answered, or by the
    daily bonus drawn. *)
Definition balanceMove (c : Config) (e : Env) (u u' : User) : Prop :=
  balance u' = balance u
  \/ (isWaiting (captchaState u) = false /\ inGame u = true
      /\ balance u' = balance u + 250)
  \/ (isWaiting (captchaState u) = true
      /\ exists t, task (captchaState u) = Some t /\ balance u' = balance u + bonus t)
  \/ (isWaiting (captchaState u) = true
      /\ type (captchaState u) = Some TypeClaim
      /\ balance u' = balance u
                      + (randomBelow (random e)
                           (max (dailyBonus c) - min (dailyBonus c) + 1)
                         + min (dailyBonus c))).

(** No code unit of the text is white space. *)
Fixpoint hasNoWhiteSpace (s : string) : bool :=
  match s with
  | EmptyString => true
  | String c r => negb (Js.isWhiteSpace c) && hasNoWhiteSpace r
  end.

(** * Properties *)

(** ** The string primitives on examples *)

Example parseInt_prefix : Js.parseIntStr "  42abc" = Some 42.
Proof. reflexivity. Qed.

Example parseInt_negative : Js.parseIntStr "-7" = Some (-7).
Proof. reflexivity. Qed.

Example parseInt_hex : Js.parseIntStr "0x1A" = Some 26.
Proof. reflexivity. Qed.

Example parseInt_NaN : Js.parseIntStr "abc" = None.
Proof. reflexivity. Qed.

Example trim_both_ends : Js.trim "  a b  " = "a b".
Proof. reflexivity. Qed.

Example split_keeps_empty_fields :
  Js.split "/addtugas 150  5 x" = ["/addtugas"; "150"; EmptyString; "5"; "x"].
Proof. reflexivity. Qed.

Example toUpperCase_ascii : Js.toUpperCase "ab1Z" = "AB1Z".
Proof. reflexivity. Qed.

Example endsWith_suffix : Js.endsWith "628@c.us" "@c.us" = true.
Proof. reflexivity. Qed.

Example generateCaptcha_sample : generateCaptcha 6 (random36 day1) = sampleToken.
Proof. reflexivity. Qed.

(** ** Strings: case mapping *)

Lemma lowerChar_upperChar c : Js.lowerChar (Js.upperChar c) = Js.lowerChar c.
Proof. destruct c as [[] [] [] [] [] [] [] []]; reflexivity. Qed.

Lemma upperChar_lowerChar c : Js.upperChar (Js.lowerChar c) = Js.upperChar c.
Proof. destruct c as [[] [] [] [] [] [] [] []]; reflexivity. Qed.

Lemma upperChar_idem c : Js.upperChar (Js.upperChar c) = Js.upperChar c.
Proof. destruct c as [[] [] [] [] [] [] [] []]; reflexivity. Qed.

Lemma mapChars_compose f g s :
  Js.mapChars f (Js.mapChars g s) = Js.mapChars (fun c => f (g c)) s.
Proof. induction s as [|c s IH]; simpl; [reflexivity | now rewrite IH]. Qed.

Lemma mapChars_ext f g s :
  (forall c, f c = g c) -> Js.mapChars f s = Js.mapChars g s.
Proof. intros E. induction s as [|c s IH]; simpl; [reflexivity | now rewrite E, IH]. Qed.

Lemma toLowerCase_toUpperCase s :
  Js.toLowerCase (Js.toUpperCase s) = Js.toLowerCase s.
Proof.
  unfold Js.toLowerCase, Js.toUpperCase. rewrite mapChars_compose.
  apply mapChars_ext, lowerChar_upperChar.
Qed.

Lemma toUpperCase_toLowerCase s :
  Js.toUpperCase (Js.toLowerCase s) = Js.toUpperCase s.
Proof.
  unfold Js.toLowerCase, Js.toUpperCase. rewrite mapChars_compose.
  apply mapChars_ext, upperChar_lowerChar.
Qed.

Lemma toUpperCase_idem s : Js.toUpperCase (Js.toUpperCase s) = Js.toUpperCase s.
Proof.
  unfold Js.toUpperCase. rewrite mapChars_compose.
  apply mapChars_ext, upperChar_idem.
Qed.

(** Two texts have the same upper-case form exactly when they have the
    same lower-case form. *)
Lemma upper_eq_iff_lower_eq x y :
  Js.toUpperCase x = Js.toUpperCase y <-> Js.toLowerCase x = Js.toLowerCase y.
Proof.
  split; intros E.
  - rewrite <- (toLowerCase_toUpperCase x), <- (toLowerCase_toUpperCase y).
    now rewrite E.
  - rewrite <- (toUpperCase_toLowerCase x), <- (toUpperCase_toLowerCase y).
    now rewrite E.
Qed.

Lemma isUpperCase_spec s : isUpperCase s = true <-> Js.toUpperCase s = s.
Proof. unfold isUpperCase. apply String.eqb_eq. Qed.

(** Comparing the upper-cased, trimmed input with an upper-case token is
    the case-insensitive comparison. *)
Lemma token_comparison input a :
  isUpperCase a = true ->
  String.eqb (Js.toUpperCase (Js.trim input)) a = true <-> sameIgnoringCase input a.
Proof.
  intros Ha. apply isUpperCase_spec in Ha. unfold sameIgnoringCase.
  rewrite String.eqb_eq, <- upper_eq_iff_lower_eq, Ha. reflexivity.
Qed.

Lemma generateCaptcha_upper n r : isUpperCase (generateCaptcha n r) = true.
Proof. apply isUpperCase_spec. unfold generateCaptcha. apply toUpperCase_idem. Qed.

(** ** [Math.floor(Math.random() * n)] *)


Lemma randomBelow_range (r : Q) (n : Z) :
  (0 <= r)%Q -> (r < 1)%Q -> 0 < n -> 0 <= randomBelow r n < n.
Proof.
  intros H0 H1 Hn. unfold randomBelow.
  assert (Hq : (0 < inject_Z n)%Q) by (now rewrite (Zlt_Qlt 0 n) in Hn).
  split.
  - rewrite <- (Qfloor_Z 0). apply Qfloor_resp_le.
    change (inject_Z 0) with 0%Q. now apply Qmult_le_0_compat, Qlt_le_weak.
  - rewrite Zlt_Qlt. eapply Qle_lt_trans; [apply Qfloor_le |].
    rewrite <- (Qmult_1_l (inject_Z n)) at 2.
    now apply Qmult_lt_compat_r.
Qed.

(** ** The invariant is preserved by every handler *)

Lemma Inv_setUser from u b :
  Inv b -> userOk u = true -> Inv (setUser from u b).
Proof.
  intros [Hu Hc] Hok. split; [|exact Hc].
  intros k u'. simpl. rewrite lookup_insert_Some.
  intros [[_ <-]|[_ Hk]]; [exact Hok | eauto].
Qed.

Lemma Inv_setTimers t n b : Inv b -> Inv (setTimers t n b).
Proof. intros H; exact H. Qed.

Lemma Inv_setTasks ts b : Inv b -> Inv (setTasks ts b).
Proof. intros H; exact H. Qed.

Lemma Inv_setUserChats s b : Inv b -> Inv (setUserChats s b).
Proof. intros H; exact H. Qed.

Lemma Inv_clearTimeout t b : Inv b -> Inv (clearTimeout t b).
Proof. destruct t; intros H; exact H. Qed.

Lemma Inv_deleteUser k b : Inv b -> Inv (setUsers (delete k (users b)) b).
Proof.
  intros [Hu Hc]. split; [|exact Hc].
  intros k' u'. simpl. rewrite lookup_delete_Some. intros [_ Hk]. eauto.
Qed.

Lemma Inv_lookup b k u : Inv b -> users b !! k = Some u -> userOk u = true.
Proof. intros [Hu _]. apply Hu. Qed.

Lemma userOk_setBalance x u : userOk (setBalance x u) = userOk u.
Proof. reflexivity. Qed.
Lemma userOk_setIsBlocked x u : userOk (setIsBlocked x u) = userOk u.
Proof. reflexivity. Qed.
Lemma userOk_setIsAdmin x u : userOk (setIsAdmin x u) = userOk u.
Proof. reflexivity. Qed.
Lemma userOk_setClaimed x u : userOk (setClaimedDailyBonus x u) = userOk u.
Proof. reflexivity. Qed.
Lemma userOk_setCompleted x u : userOk (setCompletedTasksToday x u) = userOk u.
Proof. reflexivity. Qed.
Lemma userOk_dailyReset d u : userOk (dailyReset d u) = userOk u.
Proof. reflexivity. Qed.

Lemma userOk_notWaiting u :
  userOk u = true -> userOk (setCaptchaState notWaiting u) = true.
Proof.
  unfold userOk. simpl. rewrite !andb_true_iff. intros [[_ _] H]. auto.
Qed.

Lemma userOk_endGame u g :
  userOk u = true -> userOk (setGame false g u) = true.
Proof.
  unfold userOk. simpl. rewrite !andb_true_iff. intros [[H _] _].
  rewrite andb_false_r. auto.
Qed.

Lemma userOk_startGame u g :
  userOk u = true -> isWaiting (captchaState u) = false -> 1 <= g <= 100 ->
  userOk (setGame true g u) = true.
Proof.
  unfold userOk. simpl. rewrite !andb_true_iff. intros [[H _] _] Hw Hg.
  rewrite Hw. simpl. repeat split; [exact H | lia | lia].
Qed.

Lemma userOk_challenge u cs :
  userOk u = true -> inGame u = false -> isWaiting cs = true -> captchaOk cs = true ->
  userOk (setCaptchaState cs u) = true.
Proof.
  unfold userOk. simpl. intros _ Hg Hw Hcs. rewrite Hcs, Hg, Hw. reflexivity.
Qed.

Create Rewrite HintDb user_ok.
#[local] Hint Rewrite userOk_setBalance userOk_setIsBlocked userOk_setIsAdmin
  userOk_setClaimed userOk_setCompleted userOk_dailyReset : user_ok.

(** Peels the field updates off a goal [Inv _] or [userOk _ = true]. *)
Ltac inv_goal :=
  repeat match goal with
    | |- Inv (setUser _ _ _) => apply Inv_setUser
    | |- Inv (setTimers _ _ _) => apply Inv_setTimers
    | |- Inv (setTasks _ _) => apply Inv_setTasks
    | |- Inv (setUserChats _ _) => apply Inv_setUserChats
    | |- Inv (clearTimeout _ _) => apply Inv_clearTimeout
    | |- Inv (setUsers (delete _ _) _) => apply Inv_deleteUser
    | |- userOk (setCaptchaState notWaiting _) = true => apply userOk_notWaiting
    | |- userOk (setGame false _ _) = true => apply userOk_endGame
    | |- userOk _ = true => progress (autorewrite with user_ok)
    end;
  try assumption.

(** Splits a handler into its branches and settles each. *)
Ltac handler_cases := repeat case_match; simpl; inv_goal.

Lemma startGame_Inv from u e b :
  Inv b -> userOk u = true -> isWaiting (captchaState u) = false -> validEnv e ->
  Inv (fst (startGame from u e b)).
Proof.
  intros HI Hok Hw [H0 H1]. unfold startGame. simpl.
  apply Inv_setUser; [exact HI|]. apply userOk_startGame; auto.
  pose proof (randomBelow_range (random e) 100 H0 H1). lia.
Qed.

Lemma handleGameInput_Inv from u input b :
  Inv b -> userOk u = true -> Inv (fst (handleGameInput from u input b)).
Proof. intros HI Hok. unfold handleGameInput. handler_cases. Qed.

Lemma handleClaim_Inv from u e b :
  Inv b -> userOk u = true -> inGame u = false ->
  Inv (fst (handleClaim from u e b)).
Proof.
  intros HI Hok Hg. unfold handleClaim. handler_cases.
  apply userOk_challenge; auto.
  unfold captchaOk. simpl. now rewrite generateCaptcha_upper.
Qed.

Lemma handleSelesai_Inv from u arg e b :
  Inv b -> userOk u = true -> inGame u = false ->
  Inv (fst (handleSelesai from u arg e b)).
Proof.
  intros HI Hok Hg. unfold handleSelesai. handler_cases.
  apply userOk_challenge; auto.
  unfold captchaOk. simpl. now rewrite generateCaptcha_upper.
Qed.

Lemma verifyCaptcha_Inv from u input e b :
  Inv b -> userOk u = true -> Inv (fst (verifyCaptcha from u input e b)).
Proof. intros HI Hok. unfold verifyCaptcha. handler_cases. Qed.

Lemma timeoutCallback_Inv from taskId b :
  Inv b -> Inv (fst (timeoutCallback from taskId b)).
Proof.
  intros HI. unfold timeoutCallback.
  destruct (users b !! from) as [u|] eqn:Hu; [|exact HI].
  pose proof (Inv_lookup _ _ _ HI Hu). handler_cases.
Qed.

Lemma fireTimer_Inv t b : Inv b -> Inv (fst (fireTimer t b)).
Proof.
  intros HI. unfold fireTimer. destruct (timers b !! t); [|exact HI].
  apply timeoutCallback_Inv. exact HI.
Qed.

Lemma handleLoginAdmin_Inv from u pw b :
  Inv b -> userOk u = true -> Inv (fst (handleLoginAdmin from u pw b)).
Proof. intros HI Hok. unfold handleLoginAdmin. handler_cases. Qed.

Lemma handleSetBlocked_Inv flag from u arg b :
  Inv b -> Inv (fst (handleSetBlocked flag from u arg b)).
Proof.
  intros HI. unfold handleSetBlocked, checkAdmin.
  handler_cases; eauto using Inv_lookup.
Qed.

Lemma handleDeleteUser_Inv from u arg b :
  Inv b -> Inv (fst (handleDeleteUser from u arg b)).
Proof. intros HI. unfold handleDeleteUser, checkAdmin. handler_cases. Qed.

Lemma handleAddTugas_Inv from u x y d b :
  Inv b -> Inv (fst (handleAddTugas from u x y d b)).
Proof. intros HI. unfold handleAddTugas, checkAdmin. handler_cases. Qed.

Lemma handleDeleteTask_Inv from u x b :
  Inv b -> Inv (fst (handleDeleteTask from u x b)).
Proof. intros HI. unfold handleDeleteTask, checkAdmin. handler_cases. Qed.

Lemma handleSetBonus_Inv from u x y b :
  Inv b -> Inv (fst (handleSetBonus from u x y b)).
Proof.
  intros HI. unfold handleSetBonus, checkAdmin.
  handler_cases; destruct HI as [Hu _]; (split; [exact Hu|]); simpl;
    apply Z.ltb_ge; assumption.
Qed.

Lemma dispatch_Inv from u body e b :
  Inv b -> userOk u = true -> validEnv e ->
  isWaiting (captchaState u) = false -> inGame u = false ->
  Inv (fst (dispatch from u body e b)).
Proof.
  intros HI Hok He Hw Hg. unfold dispatch.
  destruct (negb _).
  { unfold getAiResponse. handler_cases. }
  destruct (commandOf _);
    auto using handleClaim_Inv, handleSelesai_Inv, startGame_Inv,
      handleLoginAdmin_Inv, handleSetBlocked_Inv, handleDeleteUser_Inv,
      handleAddTugas_Inv, handleDeleteTask_Inv, handleSetBonus_Inv.
  - unfold handleListAvailableTasks. handler_cases.
  - unfold handleImageGeneration. handler_cases.
  - unfold handleVideoGeneration. handler_cases.
  - unfold handleListUsers, checkAdmin. handler_cases.
  - apply handleSetBlocked_Inv; exact HI.
  - apply handleSetBlocked_Inv; exact HI.
  - unfold handleListAllTasks, checkAdmin. handler_cases.
  - unfold unknownCommand. handler_cases.
Qed.

Lemma handleState_Inv from u body e b :
  Inv b -> userOk u = true -> validEnv e ->
  Inv (fst (handleState from u body e b)).
Proof.
  intros HI Hok He. unfold handleState.
  destruct (isWaiting (captchaState u)) eqn:Hw; [now apply verifyCaptcha_Inv|].
  destruct (inGame u) eqn:Hg; [now apply handleGameInput_Inv|].
  now apply dispatch_Inv.
Qed.

Lemma handleMessage_Inv from body e b :
  Inv b -> validEnv e -> Inv (fst (handleMessage from body e b)).
Proof.
  intros HI He. unfold handleMessage.
  destruct (users b !! from) as [u|] eqn:Hu.
  - pose proof (Inv_lookup _ _ _ HI Hu) as Hok.
    destruct (isBlocked u); [exact HI|].
    destruct (String.eqb _ _).
    + destruct (handleState from u body e b) as [b2 eff] eqn:E.
      change b2 with (fst (b2, eff)). rewrite <- E. now apply handleState_Inv.
    + destruct (handleState from (dailyReset (today e) u) body e _) as [b2 eff] eqn:E.
      change b2 with (fst (b2, eff)). rewrite <- E.
      apply handleState_Inv; auto. now apply Inv_setUser.
  - simpl.
    destruct (String.eqb _ _).
    + destruct (handleState from _ body e _) as [b2 eff] eqn:E.
      change b2 with (fst (b2, eff)). rewrite <- E.
      apply handleState_Inv; auto. now apply Inv_setUser.
    + destruct (handleState from _ body e _) as [b2 eff] eqn:E.
      change b2 with (fst (b2, eff)). rewrite <- E.
      apply handleState_Inv; auto. apply Inv_setUser; [|reflexivity].
      now apply Inv_setUser.
Qed.

Lemma Inv_initialBot : Inv initialBot.
Proof. split; [intros k u; simpl; rewrite lookup_empty; discriminate | simpl; lia]. Qed.

Lemma step_Inv ev b : Inv b -> validEvent ev -> Inv (fst (step ev b)).
Proof.
  destruct ev; simpl; intros HI He; [now apply handleMessage_Inv | now apply fireTimer_Inv].
Qed.

Lemma reachable_Inv b : reachable b -> Inv b.
Proof. induction 1; [apply Inv_initialBot | now apply step_Inv]. Qed.

(** ** What the handlers leave alone *)

(** Resolves a lookup in the user table of a handler's result. *)
Ltac frame_cases :=
  repeat case_match; simpl; intros ? ? ?;
  repeat match goal with
    | H : _ !! _ = Some _ |- _ => rewrite lookup_insert_Some in H
    | H : _ !! _ = Some _ |- _ => rewrite lookup_delete_Some in H
    | H : _ \/ _ |- _ => destruct H
    | H : _ /\ _ |- _ => destruct H
    end;
  simplify_eq; eauto.

(** A command never credits: every record that is in the table after the
    command was there before with the same ledger and the same date. *)
Lemma dispatch_frame from u body e b :
  users b !! from = Some u ->
  forall k u', users (fst (dispatch from u body e b)) !! k = Some u' ->
  exists u0, users b !! k = Some u0 /\ ledger u' = ledger u0
             /\ lastLogin u' = lastLogin u0.
Proof.
  intros Hu. unfold dispatch.
  destruct (negb _); [unfold getAiResponse; frame_cases|].
  destruct (commandOf _);
    unfold handleClaim, handleListAvailableTasks, handleSelesai,
      handleImageGeneration, handleVideoGeneration, startGame, handleLoginAdmin,
      handleListUsers, handleBlockUser, handleUnblockUser, handleSetBlocked,
      handleDeleteUser, handleAddTugas, handleListAllTasks, handleDeleteTask,
      handleSetBonus, unknownCommand, checkAdmin, showMenu;
    frame_cases.
Qed.

Lemma verifyCaptcha_lastLogin from u input e b :
  users b !! from = Some u ->
  forall k u', users (fst (verifyCaptcha from u input e b)) !! k = Some u' ->
  exists u0, users b !! k = Some u0 /\ lastLogin u' = lastLogin u0.
Proof.
  intros Hu. unfold verifyCaptcha, clearTimeout. frame_cases.
Qed.

Lemma handleGameInput_lastLogin from u input b :
  users b !! from = Some u ->
  forall k u', users (fst (handleGameInput from u input b)) !! k = Some u' ->
  exists u0, users b !! k = Some u0 /\ lastLogin u' = lastLogin u0.
Proof.
  intros Hu. unfold handleGameInput. frame_cases.
Qed.

Lemma handleState_lastLogin from u body e b :
  users b !! from = Some u ->
  forall k u', users (fst (handleState from u body e b)) !! k = Some u' ->
  exists u0, users b !! k = Some u0 /\ lastLogin u' = lastLogin u0.
Proof.
  intros Hu k u' Hk. unfold handleState in Hk.
  destruct (isWaiting _); [eauto using verifyCaptcha_lastLogin|].
  destruct (inGame _); [eauto using handleGameInput_lastLogin|].
  destruct (dispatch_frame _ _ _ _ _ Hu _ _ Hk) as (u0 & ? & _ & ?). eauto.
Qed.

(** ** [handleMessage] for a known sender *)

(** The record is blocked: nothing happens. *)
Lemma handleMessage_blocked from body e b u :
  users b !! from = Some u -> isBlocked u = true ->
  handleMessage from body e b = (b, []).
Proof. intros Hu Hb. unfold handleMessage. now rewrite Hu, Hb. Qed.

(** Same date: the handler goes to the mode-specific handling at once. *)
Lemma handleMessage_same_day from body e b u :
  users b !! from = Some u -> isBlocked u = false -> lastLogin u = today e ->
  handleMessage from body e b = handleState from u body e b.
Proof.
  intros Hu Hb Hd. unfold handleMessage. rewrite Hu, Hb, Hd, String.eqb_refl.
  now destruct (handleState from u body e b).
Qed.

(** Another date: the daily reset comes first. *)
Lemma handleMessage_new_day from body e b u :
  users b !! from = Some u -> isBlocked u = false -> lastLogin u <> today e ->
  handleMessage from body e b
  = handleState from (dailyReset (today e) u) body e
      (setUser from (dailyReset (today e) u) b).
Proof.
  intros Hu Hb Hd. unfold handleMessage. rewrite Hu, Hb.
  apply String.eqb_neq in Hd. rewrite Hd.
  now destruct (handleState from _ body e _).
Qed.

(** An idle, unblocked sender never gains balance from one message. *)
Lemma handleMessage_idle_no_credit from body e b u :
  users b !! from = Some u ->
  isWaiting (captchaState u) = false -> inGame u = false ->
  forall u', users (fst (handleMessage from body e b)) !! from = Some u' ->
  balance u' = balance u
  /\ (forall x, In x (completedTasksToday u') -> In x (completedTasksToday u))
  /\ (claimedDailyBonus u' = true -> claimedDailyBonus u = true).
Proof.
  intros Hu Hw Hg u' Hk.
  destruct (isBlocked u) eqn:Hb.
  { rewrite (handleMessage_blocked _ _ _ _ _ Hu Hb) in Hk. simpl in Hk.
    rewrite Hu in Hk. now inversion Hk. }
  destruct (String.eqb (lastLogin u) (today e)) eqn:Hd.
  - apply String.eqb_eq in Hd.
    rewrite (handleMessage_same_day _ _ _ _ _ Hu Hb Hd) in Hk.
    unfold handleState in Hk. rewrite Hw, Hg in Hk.
    destruct (dispatch_frame _ _ _ _ _ Hu _ _ Hk) as (u0 & Hu0 & Hl & _).
    rewrite Hu in Hu0. inversion Hu0; subst u0.
    unfold ledger in Hl. inversion Hl as [[E1 E2 E3]]. rewrite E2, E3. auto.
  - apply String.eqb_neq in Hd.
    rewrite (handleMessage_new_day _ _ _ _ _ Hu Hb Hd) in Hk.
    unfold handleState in Hk. simpl in Hk. rewrite Hw, Hg in Hk.
    assert (Hu1 : users (setUser from (dailyReset (today e) u) b) !! from
                  = Some (dailyReset (today e) u)) by apply lookup_insert_eq.
    destruct (dispatch_frame _ _ _ _ _ Hu1 _ _ Hk) as (u0 & Hu0 & Hl & _).
    rewrite Hu1 in Hu0. inversion Hu0; subst u0.
    unfold ledger in Hl. simpl in Hl. inversion Hl as [[E1 E2 E3]].
    rewrite E2, E3. repeat split; [intros x [] | discriminate].
Qed.

(** ** Reachable states *)

Lemma validEnv_envAt d : validEnv (envAt d).
Proof. split; simpl; [discriminate | reflexivity]. Qed.

Lemma reachable_run evs b :
  reachable b -> Forall validEvent evs -> reachable (fst (run evs b)).
Proof.
  revert b. induction evs as [|ev evs IH]; intros b Hb Hv; simpl; [exact Hb|].
  inversion Hv as [|? ? Hev Hrest]; subst.
  pose proof (reachable_step ev b Hb Hev) as H1.
  destruct (step ev b) as [b1 eff1]. simpl in H1.
  specialize (IH b1 H1 Hrest).
  destruct (run evs b1) as [b2 eff2]. exact IH.
Qed.


Lemma catalogScenario_valid : Forall validEvent catalogScenario.
Proof. repeat constructor; apply validEnv_envAt. Qed.

Lemma taskScenario_valid : Forall validEvent taskScenario.
Proof. repeat constructor; apply validEnv_envAt. Qed.

Lemma claimScenario_valid : Forall validEvent claimScenario.
Proof. repeat constructor; apply validEnv_envAt. Qed.

(** ** C1: the session invariant *)







(** ** C2: answer against deadline *)

Lemma timeoutCallback_no_match from taskId b :
  (forall u t, users b !! from = Some u -> isWaiting (captchaState u) = true ->
               task (captchaState u) = Some t -> id t <> taskId) ->
  timeoutCallback from taskId b = (b, []).
Proof.
  intros H. unfold timeoutCallback.
  destruct (users b !! from) as [u|] eqn:Hu; [|reflexivity].
  destruct (isWaiting (captchaState u)) eqn:Hw; [|reflexivity].
  destruct (task (captchaState u)) as [t|] eqn:Ht; [|reflexivity].
  simpl. specialize (H u t eq_refl Hw Ht).
  apply Z.eqb_neq in H. now rewrite H.
Qed.

Lemma timeoutCallback_match from u t b :
  users b !! from = Some u -> isWaiting (captchaState u) = true ->
  task (captchaState u) = Some t ->
  timeoutCallback from (id t) b
  = (setUser from (setCaptchaState notWaiting u) b,
     [WriteUsers (users (setUser from (setCaptchaState notWaiting u) b));
      Reply from RTimeout]).
Proof.
  intros Hu Hw Ht. unfold timeoutCallback. now rewrite Hu, Hw, Ht, Z.eqb_refl.
Qed.

(** After [verifyCaptcha] the sender's record is there and not waiting. *)
Lemma verifyCaptcha_resets from u input e b :
  exists u', users (fst (verifyCaptcha from u input e b)) !! from = Some u'
             /\ captchaState u' = notWaiting
             /\ inGame u' = inGame u /\ isAdmin u' = isAdmin u.
Proof.
  unfold verifyCaptcha. repeat case_match; simpl;
    rewrite lookup_insert_eq; eexists; (split; [reflexivity|]); auto.
Qed.

Lemma verifyCaptcha_cancels from u input e b tid :
  timerId (captchaState u) = Some tid ->
  timers (fst (verifyCaptcha from u input e b)) !! tid = None.
Proof.
  intros Ht. unfold verifyCaptcha. rewrite Ht.
  repeat case_match; simpl; apply lookup_delete_eq.
Qed.

Lemma timeoutCallback_after_answer from u input e b taskId :
  timeoutCallback from taskId (fst (verifyCaptcha from u input e b))
  = (fst (verifyCaptcha from u input e b), []).
Proof.
  apply timeoutCallback_no_match. intros u' t Hu' Hw.
  destruct (verifyCaptcha_resets from u input e b) as (u0 & Hu0 & Hcs & _).
  rewrite Hu0 in Hu'. inversion Hu'; subst u'. rewrite Hcs in Hw. discriminate.
Qed.

Lemma userOk_waiting_not_inGame u :
  userOk u = true -> isWaiting (captchaState u) = true -> inGame u = false.
Proof.
  unfold userOk. rewrite !andb_true_iff. intros [[_ H] _] Hw.
  rewrite Hw in H. now destruct (inGame u).
Qed.

(** The deadline comes first: the callback clears the challenge, a second
    run of it finds nothing, and the sender's next message credits nothing. *)
Lemma expiry_then_message from u t b :
  users b !! from = Some u -> userOk u = true ->
  isWaiting (captchaState u) = true -> task (captchaState u) = Some t ->
  let b1 := fst (timeoutCallback from (id t) b) in
  timeoutCallback from (id t) b
  = (setUser from (setCaptchaState notWaiting u) b,
     [WriteUsers (users b1); Reply from RTimeout])
  /\ timeoutCallback from (id t) b1 = (b1, [])
  /\ forall body e u',
      users (fst (handleMessage from body e b1)) !! from = Some u' ->
      balance u' = balance u
      /\ (forall x, In x (completedTasksToday u') -> In x (completedTasksToday u))
      /\ (claimedDailyBonus u' = true -> claimedDailyBonus u = true).
Proof.
  intros Hu Hok Hw Ht. rewrite (timeoutCallback_match _ _ _ _ Hu Hw Ht). simpl.
  split; [reflexivity|]. split.
  - apply timeoutCallback_no_match. intros u0 t0 Hu0 Hw0.
    simpl in Hu0. rewrite lookup_insert_eq in Hu0. inversion Hu0; subst u0.
    discriminate Hw0.
  - intros body e u' Hu'.
    eapply (handleMessage_idle_no_credit from body e _
              (setCaptchaState notWaiting u)) in Hu'; simpl; auto.
    + apply lookup_insert_eq.
    + now apply userOk_waiting_not_inGame.
Qed.

(** C2.  The deadline callback does nothing unless the sender is waiting on
    a challenge whose task id is the one the timer was created for.  For a
    pending task challenge: an answer cancels the timer, and the callback,
    were it to run all the same, does nothing; and once the callback has
    cleared the challenge (run directly, or by its timer firing), the
    sender's next message is not taken for an answer and credits nothing,
    and the timer cannot fire again. *)
Theorem challenge_resolution_exclusive
    (b : AltoBot) (from : string) (u : User) (t : Task) (tid : positive) :
  users b !! from = Some u ->
  userOk u = true ->
  isWaiting (captchaState u) = true ->
  task (captchaState u) = Some t ->
  timerId (captchaState u) = Some tid ->
  (forall b0 f n,
      (forall u0 t0, users b0 !! f = Some u0 ->
                     isWaiting (captchaState u0) = true ->
                     task (captchaState u0) = Some t0 -> id t0 <> n) ->
      timeoutCallback f n b0 = (b0, []))
  /\ (forall input e,
        let b1 := fst (verifyCaptcha from u input e b) in
        timers b1 !! tid = None
        /\ fireTimer tid b1 = (b1, [])
        /\ timeoutCallback from (id t) b1 = (b1, []))
  /\ (forall input e,
        isBlocked u = false ->
        let b1 := fst (handleMessage from input e b) in
        timers b1 !! tid = None
        /\ fireTimer tid b1 = (b1, [])
        /\ timeoutCallback from (id t) b1 = (b1, []))
  /\ (let b1 := fst (timeoutCallback from (id t) b) in
      timeoutCallback from (id t) b
      = (setUser from (setCaptchaState notWaiting u) b,
         [WriteUsers (users b1); Reply from RTimeout])
      /\ timeoutCallback from (id t) b1 = (b1, [])
      /\ forall body e u',
          users (fst (handleMessage from body e b1)) !! from = Some u' ->
          balance u' = balance u
          /\ (forall x, In x (completedTasksToday u') ->
                        In x (completedTasksToday u))
          /\ (claimedDailyBonus u' = true -> claimedDailyBonus u = true))
  /\ (timers b !! tid
      = Some {| timerFrom := from; timerTaskId := id t;
                delayMs := duration t * 60 * 1000 |} ->
      let b1 := fst (fireTimer tid b) in
      snd (fireTimer tid b) = [WriteUsers (users b1); Reply from RTimeout]
      /\ users b1 !! from = Some (setCaptchaState notWaiting u)
      /\ fireTimer tid b1 = (b1, [])
      /\ forall body e u',
          users (fst (handleMessage from body e b1)) !! from = Some u' ->
          balance u' = balance u
          /\ (forall x, In x (completedTasksToday u') ->
                        In x (completedTasksToday u))
          /\ (claimedDailyBonus u' = true -> claimedDailyBonus u = true)).
Proof.
  intros Hu Hok Hw Ht Htid.
  assert (Hans : forall u1 b0 input e,
             timerId (captchaState u1) = Some tid ->
             let b1 := fst (verifyCaptcha from u1 input e b0) in
             timers b1 !! tid = None /\ fireTimer tid b1 = (b1, [])
             /\ timeoutCallback from (id t) b1 = (b1, [])).
  { intros u1 b0 input e H1 b1. subst b1.
    pose proof (verifyCaptcha_cancels from u1 input e b0 tid H1) as Hc.
    split; [exact Hc|]. split.
    - unfold fireTimer. now rewrite Hc.
    - apply timeoutCallback_after_answer. }
  split; [intros b0 f n; apply timeoutCallback_no_match|].
  split; [intros input e; now apply Hans|].
  split; [|split].
  - intros input e Hb.
    destruct (String.eqb (lastLogin u) (today e)) eqn:Hd.
    + apply String.eqb_eq in Hd.
      rewrite (handleMessage_same_day _ _ _ _ _ Hu Hb Hd).
      unfold handleState. rewrite Hw. now apply Hans.
    + apply String.eqb_neq in Hd.
      rewrite (handleMessage_new_day _ _ _ _ _ Hu Hb Hd).
      unfold handleState. simpl. rewrite Hw. now apply Hans.
  - now apply expiry_then_message.
  - intros Htm.
    set (b0 := setTimers (delete tid (timers b)) (nextTimer b) b).
    assert (EF : fireTimer tid b = timeoutCallback from (id t) b0).
    { unfold fireTimer. now rewrite Htm. }
    assert (Hu0 : users b0 !! from = Some u) by exact Hu.
    pose proof (timeoutCallback_match from u t b0 Hu0 Hw Ht) as E.
    destruct (expiry_then_message from u t b0 Hu0 Hok Hw Ht) as (_ & _ & Hmsg).
    rewrite EF. rewrite E in Hmsg |- *. simpl in Hmsg |- *.
    split; [reflexivity|]. split; [apply lookup_insert_eq|].
    split; [|exact Hmsg].
    unfold fireTimer. simpl. now rewrite lookup_delete_eq.
Qed.

(** ** C3 and C4: resolving a challenge *)

Lemma userOk_waiting_shape u :
  userOk u = true -> isWaiting (captchaState u) = true ->
  exists a, answer (captchaState u) = Some a /\ isUpperCase a = true
    /\ (type (captchaState u) = Some TypeClaim
        \/ type (captchaState u) = Some TypeTask
           /\ exists t, task (captchaState u) = Some t).
Proof.
  unfold userOk, captchaOk. rewrite !andb_true_iff. intros [[H _] _] Hw.
  rewrite Hw in H.
  destruct (type (captchaState u)) as [[]|], (answer (captchaState u)) as [a|];
    try discriminate H; rewrite !andb_true_iff in H; exists a.
  - tauto.
  - destruct H as [[Ha Ht] _]. split; [reflexivity|]. split; [exact Ha|].
    right. split; [reflexivity|].
    destruct (task (captchaState u)) as [t|]; [now exists t | discriminate].
Qed.

Lemma claim_reward_range r lo hi :
  (0 <= r)%Q -> (r < 1)%Q -> lo <= hi ->
  lo <= randomBelow r (hi - lo + 1) + lo <= hi.
Proof.
  intros H0 H1 Hle.
  pose proof (randomBelow_range r (hi - lo + 1) H0 H1). lia.
Qed.



(** C4.  A reply that does not match leaves the ledger (balance, claim
    flag, completed tasks) as it was and is answered with the failure text.
    Match or not, the sender's record ends without a challenge, idle, and
    the last store write carries the final user table.  Whatever the sender
    sends next, the same token included, does not change the balance. *)
Theorem verifyCaptcha_consumes
    (from input : string) (u : User) (e : Env) (b : AltoBot) (a : string) :
  Inv b ->
  users b !! from = Some u ->
  isWaiting (captchaState u) = true ->
  answer (captchaState u) = Some a ->
  let b' := fst (verifyCaptcha from u input e b) in
  let eff := snd (verifyCaptcha from u input e b) in
  (~ sameIgnoringCase input a ->
   users b' !! from = Some (setCaptchaState notWaiting u)
   /\ ledger (setCaptchaState notWaiting u) = ledger u
   /\ eff = [Reply from RCaptchaWrong; WriteUsers (users b');
             Reply from (RMenu (isAdmin u))])
  /\ (exists u' pre,
        users b' !! from = Some u'
        /\ captchaState u' = notWaiting
        /\ pendingChallenge u' = None
        /\ inMode Idle u' = true
        /\ eff = (pre ++ [WriteUsers (users b'); Reply from (RMenu (isAdmin u))])%list)
  /\ (forall body e2 u' u'',
        users b' !! from = Some u' ->
        users (fst (handleMessage from body e2 b')) !! from = Some u'' ->
        balance u'' = balance u').
Proof.
  intros HI Hu Hw Ha b' eff.
  pose proof (Inv_lookup _ _ _ HI Hu) as Hok.
  pose proof (userOk_waiting_not_inGame u Hok Hw) as Hg.
  destruct (userOk_waiting_shape u Hok Hw) as (a' & Ha' & Hup & Hty).
  rewrite Ha in Ha'. inversion Ha'; subst a'. clear Ha'.
  split; [|split].
  - intros Hn. subst b' eff. unfold verifyCaptcha. rewrite Ha.
    destruct (String.eqb _ a) eqn:Heq.
    { exfalso. apply Hn. now apply token_comparison. }
    simpl. rewrite lookup_insert_eq. auto.
  - subst b' eff. unfold verifyCaptcha. rewrite Ha.
    destruct (String.eqb _ a).
    + destruct Hty as [Hty | [Hty [t Ht]]]; rewrite Hty; [|rewrite Ht];
        simpl; rewrite lookup_insert_eq; eexists;
        eexists [_; _; _]; (split; [reflexivity|]); simpl; rewrite Hg; auto 10.
    + simpl. rewrite lookup_insert_eq. eexists. eexists [_].
      split; [reflexivity|]. simpl. rewrite Hg. auto 10.
  - intros body e2 u' u'' Hu' Hu''.
    destruct (verifyCaptcha_resets from u input e b) as (u0 & Hu0 & Hcs & Hg0 & _).
    fold b' in Hu0. rewrite Hu' in Hu0. inversion Hu0; subst u0.
    assert (Hw' : isWaiting (captchaState u') = false) by now rewrite Hcs.
    assert (Hg' : inGame u' = false) by congruence.
    exact (proj1 (handleMessage_idle_no_credit from body e2 b' u' Hu' Hw' Hg' u'' Hu'')).
Qed.

(** ** C5: the daily claim, once a day *)

Lemma dispatch_selects from u body e b c :
  selects body c ->
  dispatch from u body e b
  = match c with
    | CmdKlaim => handleClaim from u e b
    | CmdGame => startGame from u e b
    | CmdMenu => (b, showMenu from u)
    | _ => dispatch from u body e b
    end.
Proof.
  intros [Hs Hc]. unfold dispatch. rewrite Hs, Hc. now destruct c.
Qed.

Lemma handleMessage_idle_same_day from body e b u :
  users b !! from = Some u -> isBlocked u = false -> lastLogin u = today e ->
  inMode Idle u = true ->
  handleMessage from body e b = dispatch from u body e b.
Proof.
  intros Hu Hb Hd Hm. rewrite (handleMessage_same_day _ _ _ _ _ Hu Hb Hd).
  unfold inMode in Hm. apply andb_true_iff in Hm as [Hw Hg].
  apply negb_true_iff in Hw, Hg. unfold handleState. now rewrite Hw, Hg.
Qed.


(** ** C6: the daily reset comes first *)

(** C6.  For a known, unblocked sender whose record bears another date,
    [handleMessage] is the mode-specific handling of the record after the
    daily reset (claim flag cleared, completed tasks emptied, date set to
    today, everything else kept), and the record ends with today's date.  In
    particular a claim message of an idle sender then starts a challenge,
    whatever the claim flag was. *)
Theorem daily_reset_first
    (from body : string) (e : Env) (b : AltoBot) (u : User) :
  users b !! from = Some u ->
  isBlocked u = false ->
  lastLogin u <> today e ->
  let u1 := dailyReset (today e) u in
  (claimedDailyBonus u1 = false /\ completedTasksToday u1 = []
   /\ lastLogin u1 = today e)
  /\ (balance u1 = balance u /\ captchaState u1 = captchaState u
      /\ inGame u1 = inGame u /\ gameAnswer u1 = gameAnswer u
      /\ isAdmin u1 = isAdmin u /\ isBlocked u1 = isBlocked u)
  /\ handleMessage from body e b
     = handleState from u1 body e (setUser from u1 b)
  /\ (forall u', users (fst (handleMessage from body e b)) !! from = Some u' ->
                 lastLogin u' = today e)
  /\ (inMode Idle u = true -> selects body CmdKlaim ->
      exists b', handleMessage from body e b
                 = (b', [WriteUsers (users b');
                         Reply from (RCaptchaClaim (generateCaptcha 6 (random36 e)))])).
Proof.
  intros Hu Hb Hd u1.
  pose proof (handleMessage_new_day from body e b u Hu Hb Hd) as HM. fold u1 in HM.
  split; [auto|]. split; [repeat split|]. split; [exact HM|].
  assert (Hu1 : users (setUser from u1 b) !! from = Some u1) by apply lookup_insert_eq.
  split.
  - intros u' Hu'. rewrite HM in Hu'.
    destruct (handleState_lastLogin _ _ _ _ _ Hu1 _ _ Hu') as (u0 & Hu0 & Hl).
    rewrite Hu1 in Hu0. inversion Hu0; subst u0. exact Hl.
  - intros Hm Hs. rewrite HM.
    unfold inMode in Hm. apply andb_true_iff in Hm as [Hw Hg].
    apply negb_true_iff in Hw, Hg. unfold handleState. simpl. rewrite Hw, Hg.
    rewrite (dispatch_selects _ _ _ _ _ _ Hs). unfold handleClaim.
    change (claimedDailyBonus u1) with false. cbv iota zeta.
    eexists. reflexivity.
Qed.

(** ** C7: the guessing game *)

(** C7.  In a game, the exit keyword ends the game and leaves the balance;
    a text that [parseInt] rejects gets the retry prompt, a number below the
    target "too low", a number above it "too high", all three without any
    change of state; the target itself adds 250 to the balance and ends the
    game, after which no message of the sender changes the balance again.
    For an unblocked sender on the date of the record, [handleMessage] is
    [handleGameInput]. *)
Theorem game_input
    (from input : string) (u : User) (b : AltoBot) :
  users b !! from = Some u ->
  userOk u = true ->
  inGame u = true ->
  (Js.trim (Js.toLowerCase input) = "/exitgame" ->
   handleGameInput from u input b
   = (setUser from (setGame false (gameAnswer u) u) b,
      [WriteUsers (users (setUser from (setGame false (gameAnswer u) u) b));
       Reply from RGameExit; Reply from (RMenu (isAdmin u))]))
  /\ (Js.trim (Js.toLowerCase input) <> "/exitgame" ->
      (Js.parseIntStr input = None ->
       handleGameInput from u input b = (b, [Reply from RGameInvalid]))
      /\ (forall guess, Js.parseIntStr input = Some guess ->
          (guess < gameAnswer u ->
           handleGameInput from u input b = (b, [Reply from RGameLow]))
          /\ (gameAnswer u < guess ->
              handleGameInput from u input b = (b, [Reply from RGameHigh]))
          /\ (guess = gameAnswer u ->
              let u' := setGame false (gameAnswer u) (setBalance (balance u + 250) u) in
              handleGameInput from u input b
              = (setUser from u' b,
                 [WriteUsers (users (setUser from u' b));
                  Reply from (RGameWin (gameAnswer u) 250 (balance u + 250));
                  Reply from (RMenu (isAdmin u))])
              /\ balance u' = balance u + 250
              /\ inMode Idle u' = true
              /\ forall body e u'',
                  users (fst (handleMessage from body e (setUser from u' b))) !! from
                  = Some u'' ->
                  balance u'' = balance u + 250)))
  /\ (forall e, isBlocked u = false -> lastLogin u = today e ->
      handleMessage from input e b = handleGameInput from u input b).
Proof.
  intros Hu Hok Hg.
  assert (Hw : isWaiting (captchaState u) = false).
  { unfold userOk in Hok. rewrite !andb_true_iff in Hok.
    destruct Hok as [[_ H] _]. rewrite Hg in H. now destruct (isWaiting _). }
  split; [|split].
  - intros He. unfold handleGameInput. now rewrite He.
  - intros He. apply String.eqb_neq in He.
    split.
    + intros Hp. unfold handleGameInput. now rewrite He, Hp.
    + intros guess Hp. split; [|split].
      * intros Hlt. unfold handleGameInput. rewrite He, Hp.
        apply Z.ltb_lt in Hlt. now rewrite Hlt.
      * intros Hgt. unfold handleGameInput. rewrite He, Hp.
        assert (H1 : (guess <? gameAnswer u) = false) by (apply Z.ltb_ge; lia).
        apply Z.ltb_lt in Hgt. now rewrite H1, Hgt.
      * intros Heq u'. split; [|split; [|split]].
        -- unfold handleGameInput. rewrite He, Hp. subst guess.
           now rewrite Z.ltb_irrefl.
        -- reflexivity.
        -- unfold inMode. simpl. now rewrite Hw.
        -- intros body e u'' Hu''.
           assert (Hl : users (setUser from u' b) !! from = Some u')
             by apply lookup_insert_eq.
           exact (proj1 (handleMessage_idle_no_credit from body e _ u' Hl Hw
                           eq_refl u'' Hu'')).
  - intros e Hb Hd. rewrite (handleMessage_same_day _ _ _ _ _ Hu Hb Hd).
    unfold handleState. now rewrite Hw, Hg.
Qed.

(** ** C10: blocked senders *)

(** C10.  A message from a sender whose record is blocked has no effect at
    all: the bot is the same afterwards (no field of any record, no timer),
    nothing is replied or written, and the record keeps its date and its
    daily flags even when the date has changed. *)
Theorem blocked_sender_ignored
    (from body : string) (e : Env) (b : AltoBot) (u : User) :
  users b !! from = Some u ->
  isBlocked u = true ->
  handleMessage from body e b = (b, [])
  /\ step (Message from body e) b = (b, [])
  /\ users (fst (handleMessage from body e b)) !! from = Some u.
Proof.
  intros Hu Hb. unfold step.
  rewrite (handleMessage_blocked _ _ _ _ _ Hu Hb). auto.
Qed.

(** ** C8: the task catalog *)

Lemma fold_max_ge xs x : x <= fold_left Z.max xs x.
Proof.
  revert x. induction xs as [|y xs IH]; intros x; simpl; [lia|].
  specialize (IH (Z.max x y)). lia.
Qed.

Lemma fold_max_upper xs x y : In y xs -> y <= fold_left Z.max xs x.
Proof.
  revert x. induction xs as [|z xs IH]; intros x; simpl; [tauto|].
  intros [->|Hin]; [|now apply IH].
  pose proof (fold_max_ge xs (Z.max x y)). lia.
Qed.

Lemma fold_max_in xs x : fold_left Z.max xs x = x \/ In (fold_left Z.max xs x) xs.
Proof.
  revert x. induction xs as [|y xs IH]; intros x; simpl; [now left|].
  destruct (IH (Z.max x y)) as [H|H]; [|now right; right].
  rewrite H. destruct (Z.max_spec x y) as [[_ ->]|[_ ->]]; [right; now left | now left].
Qed.

Lemma newTaskId_nonempty ts :
  ts <> [] ->
  (exists t, In t ts /\ newTaskId ts = id t + 1)
  /\ (forall t, In t ts -> id t < newTaskId ts).
Proof.
  destruct ts as [|t0 ts]; [congruence|]. intros _. unfold newTaskId. simpl.
  split.
  - destruct (fold_max_in (List.map id ts) (id t0)) as [H|H].
    + exists t0. split; [now left | now rewrite H].
    + apply in_map_iff in H as (t & Ht & Hin). exists t.
      split; [now right | now rewrite Ht].
  - intros t [<-|Hin].
    + pose proof (fold_max_ge (List.map id ts) (id t0)). lia.
    + pose proof (fold_max_upper (List.map id ts) (id t0) (id t)
                    (in_map id ts t Hin)). lia.
Qed.

Lemma handleAddTugas_ok from u bonusStr durationStr desc b r d :
  isAdmin u = true ->
  Js.parseInt bonusStr = Some r -> Js.parseInt durationStr = Some d ->
  desc <> EmptyString -> 0 < d ->
  handleAddTugas from u bonusStr durationStr desc b
  = (setTasks (tasks b ++ [{| id := newTaskId (tasks b); bonus := r;
                              duration := d; description := desc |}])%list b,
     [WriteTasks (tasks b ++ [{| id := newTaskId (tasks b); bonus := r;
                                 duration := d; description := desc |}])%list;
      Reply from (RTaskAdded (newTaskId (tasks b)))]).
Proof.
  intros Ha Hr Hd Hdesc Hpos. unfold handleAddTugas, checkAdmin.
  rewrite Ha, Hr, Hd. apply String.eqb_neq in Hdesc. rewrite Hdesc.
  assert (H : (d <=? 0) = false) by (apply Z.leb_gt; lia). now rewrite H.
Qed.

(** C8 (as amended).  For an admin, [handleAddTugas] gives the new task the
    id 1 when the catalog is empty and otherwise one more than the largest id
    in the catalog; it answers with the usage text and changes nothing when
    the reward or the duration is not a number, the description is empty or
    the duration is not positive; otherwise it appends the task.  Creating
    twice on an empty catalog yields the ids 1 and 2; creating, deleting id 1
    and creating again yields id 1 again, because the catalog is empty
    again. *)
Theorem addTask_assigns_id
    (from : string) (u : User) (bonusStr durationStr : option string)
    (desc : string) (b : AltoBot) :
  isAdmin u = true ->
  (tasks b = [] -> newTaskId (tasks b) = 1)
  /\ (tasks b <> [] ->
      (exists t, In t (tasks b) /\ newTaskId (tasks b) = id t + 1)
      /\ (forall t, In t (tasks b) -> id t < newTaskId (tasks b)))
  /\ (Js.parseInt bonusStr = None \/ Js.parseInt durationStr = None
      \/ desc = EmptyString \/ (exists d, Js.parseInt durationStr = Some d /\ d <= 0) ->
      handleAddTugas from u bonusStr durationStr desc b
      = (b, [Reply from RAddTugasUsage]))
  /\ (forall r d,
        Js.parseInt bonusStr = Some r -> Js.parseInt durationStr = Some d ->
        desc <> EmptyString -> 0 < d ->
        let t := {| id := newTaskId (tasks b); bonus := r; duration := d;
                    description := desc |} in
        handleAddTugas from u bonusStr durationStr desc b
        = (setTasks (tasks b ++ [t])%list b,
           [WriteTasks (tasks b ++ [t])%list; Reply from (RTaskAdded (id t))])
        /\ (tasks b = [] ->
            let add := handleAddTugas from u bonusStr durationStr desc in
            let b1 := fst (add b) in
            let b2 := fst (handleDeleteTask from u (Some "1") b1) in
            announcedId (snd (add b)) = Some 1
            /\ announcedId (snd (add b1)) = Some 2
            /\ tasks b2 = []
            /\ announcedId (snd (add b2)) = Some 1)).
Proof.
  intros Ha.
  split; [intros ->; reflexivity|].
  split; [apply newTaskId_nonempty|].
  split.
  - intros H. unfold handleAddTugas, checkAdmin. rewrite Ha.
    destruct H as [->|[H|[H|(d & H & Hd)]]].
    + reflexivity.
    + rewrite H. now destruct (Js.parseInt bonusStr).
    + subst desc. now destruct (Js.parseInt bonusStr), (Js.parseInt durationStr).
    + rewrite H. destruct (Js.parseInt bonusStr); [|reflexivity].
      assert (Hle : (d <=? 0) = true) by (apply Z.leb_le; lia).
      now rewrite Hle, orb_true_r.
  - intros r d Hr Hd Hdesc Hpos t.
    split; [now apply handleAddTugas_ok|].
    intros He add b1 b2. subst add b1 b2.
    rewrite !(handleAddTugas_ok _ _ _ _ _ _ r d Ha Hr Hd Hdesc Hpos).
    simpl. rewrite He. simpl.
    unfold handleDeleteTask, checkAdmin. rewrite Ha. simpl. auto.
Qed.

(** C8 (as stated) fails: an admin creates a task on the empty catalog
    (id 1) and deletes it; the next task created gets id 1, not 2. *)
Lemma create_delete_create_reuses_id :
  let b := fst (run catalogScenario initialBot) in
  let eff := snd (step (Message "628999@c.us" "/addtugas 150 5 desc" day1) b) in
  announcedId (snd (run catalogScenario initialBot)) = Some 1
  /\ In (Reply "628999@c.us" (RTaskDeleted 1)) (snd (run catalogScenario initialBot))
  /\ announcedId eff = Some 1
  /\ announcedId eff <> Some 2.
Proof.
  vm_compute. split; [reflexivity|]. split; [auto 10|].
  split; [reflexivity | discriminate].
Qed.

(** ** C9: deleting a task that a challenge refers to *)

Lemma spliceTask_length taskId ts ts' :
  spliceTask taskId ts = Some ts' -> S (length ts') = length ts.
Proof.
  revert ts'. induction ts as [|t ts IH]; intros ts'; simpl; [discriminate|].
  destruct (id t =? taskId); [now intros [= <-]|].
  destruct (spliceTask taskId ts) as [r|]; [|discriminate].
  intros [= <-]. simpl. now rewrite (IH r eq_refl).
Qed.

Lemma spliceTask_found taskId ts t :
  findTask taskId ts = Some t -> exists ts', spliceTask taskId ts = Some ts'.
Proof.
  unfold findTask. induction ts as [|t0 ts IH]; simpl; [discriminate|].
  destruct (id t0 =? taskId); [eauto|].
  intros H. destruct (IH H) as [r ->]. eauto.
Qed.

Lemma handleDeleteTask_users from u arg b :
  users (fst (handleDeleteTask from u arg b)) = users b
  /\ timers (fst (handleDeleteTask from u arg b)) = timers b
  /\ config (fst (handleDeleteTask from u arg b)) = config b.
Proof. unfold handleDeleteTask, checkAdmin. repeat case_match; auto. Qed.

(** C9.  [handleDeleteTask] leaves every user record as it is, whoever
    calls it and whatever it deletes: the completed tasks recorded and the
    challenges in flight, with the task they captured, are untouched.  When
    an admin deletes the task of a pending challenge, the catalog loses that
    entry, and a correct answer given afterwards still adds the captured
    task's bonus to the balance and its id to the completed tasks. *)
Theorem delete_task_keeps_challenge
    (b : AltoBot) (admin from input : string) (ua u : User)
    (arg : option string) (t : Task) (a : string) (e : Env) :
  Inv b ->
  users b !! from = Some u ->
  isWaiting (captchaState u) = true ->
  type (captchaState u) = Some TypeTask ->
  task (captchaState u) = Some t ->
  answer (captchaState u) = Some a ->
  sameIgnoringCase input a ->
  let b' := fst (handleDeleteTask admin ua arg b) in
  users b' = users b
  /\ (isAdmin ua = true -> Js.parseInt arg = Some (id t) ->
      findTask (id t) (tasks b) = Some t ->
      S (length (tasks b')) = length (tasks b)
      /\ snd (handleDeleteTask admin ua arg b)
         = [WriteTasks (tasks b'); Reply admin (RTaskDeleted (id t))])
  /\ exists u',
      users (fst (verifyCaptcha from u input e b')) !! from = Some u'
      /\ balance u' = balance u + bonus t
      /\ completedTasksToday u' = (completedTasksToday u ++ [id t])%list
      /\ (isBlocked u = false -> lastLogin u = today e ->
          handleMessage from input e b' = verifyCaptcha from u input e b').
Proof.
  intros HI Hu Hw Hty Ht Ha Hm b'.
  pose proof (Inv_lookup _ _ _ HI Hu) as Hok.
  destruct (userOk_waiting_shape u Hok Hw) as (a' & Ha' & Hup & _).
  rewrite Ha in Ha'. inversion Ha'; subst a'. clear Ha'.
  pose proof (proj2 (token_comparison input a Hup) Hm) as Heq.
  destruct (handleDeleteTask_users admin ua arg b) as (Hus & _).
  fold b' in Hus.
  split; [exact Hus|]. split.
  - intros Had Hp Hf. subst b'. unfold handleDeleteTask, checkAdmin.
    rewrite Had, Hp. destruct (spliceTask_found _ _ _ Hf) as [ts' Hs].
    rewrite Hs. simpl. split; [now apply (spliceTask_length (id t))|reflexivity].
  - unfold verifyCaptcha. rewrite Ha, Heq, Hty, Ht. simpl.
    rewrite lookup_insert_eq. eexists. split; [reflexivity|].
    split; [reflexivity|]. split; [reflexivity|].
    intros Hb Hd.
    assert (Hu' : users b' !! from = Some u) by now rewrite Hus.
    rewrite (handleMessage_same_day _ _ _ _ _ Hu' Hb Hd).
    unfold handleState. rewrite Hw. unfold verifyCaptcha.
    now rewrite Ha, Heq, Hty, Ht.
Qed.

(** ** The theorems at work on the scenarios *)

Lemma taskScenario_state :
  users (fst (run taskScenario initialBot)) !! "628111@c.us" = Some waitingOnTask.
Proof. vm_compute. reflexivity. Qed.

Lemma claimScenario_state :
  users (fst (run claimScenario initialBot)) !! "628111@c.us" = Some waitingOnClaim.
Proof. vm_compute. reflexivity. Qed.

Lemma taskScenario_Inv : Inv (fst (run taskScenario initialBot)).
Proof. apply reachable_Inv, reachable_run; [constructor | apply taskScenario_valid]. Qed.

Lemma claimScenario_Inv : Inv (fst (run claimScenario initialBot)).
Proof. apply reachable_Inv, reachable_run; [constructor | apply claimScenario_valid]. Qed.

Lemma taskScenario_timer :
  timers (fst (run taskScenario initialBot)) !! 1%positive
  = Some {| timerFrom := "628111@c.us"; timerTaskId := 1; delayMs := 300000 |}.
Proof. vm_compute. reflexivity. Qed.

Lemma sampleToken_lower : sameIgnoringCase " k3x9qz " sampleToken.
Proof. reflexivity. Qed.

Lemma challenge_resolution_exclusive_witness :
  users (fst (run taskScenario initialBot)) !! "628111@c.us" = Some waitingOnTask
  /\ timers (fst (verifyCaptcha "628111@c.us" waitingOnTask "salah" day1
                    (fst (run taskScenario initialBot)))) !! 1%positive = None.
Proof.
  split; [exact taskScenario_state|].
  exact (proj1 (proj1 (proj2
    (challenge_resolution_exclusive (fst (run taskScenario initialBot))
       "628111@c.us" waitingOnTask sampleTask 1%positive
       taskScenario_state eq_refl eq_refl eq_refl eq_refl)) "salah" day1)).
Defined.


Lemma verifyCaptcha_consumes_witness :
  ~ sameIgnoringCase "salah" sampleToken
  /\ users (fst (verifyCaptcha "628111@c.us" waitingOnTask "salah" day1
                   (fst (run taskScenario initialBot)))) !! "628111@c.us"
     = Some (setCaptchaState notWaiting waitingOnTask).
Proof.
  assert (Hn : ~ sameIgnoringCase "salah" sampleToken) by (intros H; discriminate H).
  split; [exact Hn|].
  exact (proj1 (proj1
    (verifyCaptcha_consumes "628111@c.us" "salah" waitingOnTask day1
       (fst (run taskScenario initialBot)) sampleToken
       taskScenario_Inv taskScenario_state eq_refl eq_refl) Hn)).
Defined.


Lemma daily_reset_first_witness :
  lastLogin waitingOnTask <> today day2
  /\ handleMessage "628111@c.us" "K3X9QZ" day2 (fst (run taskScenario initialBot))
     = handleState "628111@c.us" (dailyReset (today day2) waitingOnTask) "K3X9QZ" day2
         (setUser "628111@c.us" (dailyReset (today day2) waitingOnTask)
            (fst (run taskScenario initialBot))).
Proof.
  assert (Hd : lastLogin waitingOnTask <> today day2) by discriminate.
  split; [exact Hd|].
  exact (proj1 (proj2 (proj2
    (daily_reset_first "628111@c.us" "K3X9QZ" day2
       (fst (run taskScenario initialBot)) waitingOnTask
       taskScenario_state eq_refl Hd)))).
Defined.

Lemma game_input_witness :
  handleGameInput "628111@c.us" playing "40"
    (setUser "628111@c.us" playing initialBot)
  = (setUser "628111@c.us" playing initialBot, [Reply "628111@c.us" RGameLow]).
Proof.
  assert (Hu : users (setUser "628111@c.us" playing initialBot) !! "628111@c.us"
               = Some playing) by (vm_compute; reflexivity).
  assert (Hx : Js.trim (Js.toLowerCase "40") <> "/exitgame") by discriminate.
  assert (Hlt : 40 < gameAnswer playing) by reflexivity.
  exact (proj1 (proj2 (proj1 (proj2
    (game_input "628111@c.us" "40" playing
       (setUser "628111@c.us" playing initialBot) Hu eq_refl eq_refl)) Hx)
    40 eq_refl) Hlt).
Defined.

Lemma addTask_assigns_id_witness :
  announcedId
    (snd (handleAddTugas "628999@c.us" adminUser (Some "150") (Some "5") "desc"
            (fst (handleDeleteTask "628999@c.us" adminUser (Some "1")
                    (fst (handleAddTugas "628999@c.us" adminUser (Some "150")
                            (Some "5") "desc" initialBot))))))
  = Some 1.
Proof.
  assert (Hd : "desc" <> EmptyString) by discriminate.
  assert (Hp : 0 < 5) by reflexivity.
  exact (proj2 (proj2 (proj2 (proj2 (proj2 (proj2 (proj2
    (addTask_assigns_id "628999@c.us" adminUser (Some "150") (Some "5") "desc"
       initialBot eq_refl))) 150 5 eq_refl eq_refl Hd Hp) eq_refl)))).
Defined.

Lemma delete_task_keeps_challenge_witness :
  users (fst (handleDeleteTask "628999@c.us" adminUser (Some "1")
                (fst (run taskScenario initialBot))))
  = users (fst (run taskScenario initialBot))
  /\ exists u',
      users (fst (verifyCaptcha "628111@c.us" waitingOnTask " k3x9qz " day1
                    (fst (handleDeleteTask "628999@c.us" adminUser (Some "1")
                            (fst (run taskScenario initialBot))))))
        !! "628111@c.us" = Some u'
      /\ balance u' = 150 /\ completedTasksToday u' = [1].
Proof.
  destruct (delete_task_keeps_challenge (fst (run taskScenario initialBot))
              "628999@c.us" "628111@c.us" " k3x9qz " adminUser waitingOnTask
              (Some "1") sampleTask sampleToken day1
              taskScenario_Inv taskScenario_state eq_refl eq_refl eq_refl eq_refl
              sampleToken_lower)
    as (Hus & _ & u' & Hu' & Hbal & Hdone & _).
  split; [exact Hus|]. exists u'. split; [exact Hu'|].
  split; [exact Hbal | exact Hdone].
Defined.

Lemma blocked_sender_ignored_witness :
  handleMessage "628111@c.us" "/klaim" day2
    (setUser "628111@c.us" blockedUser initialBot)
  = (setUser "628111@c.us" blockedUser initialBot, []).
Proof.
  assert (Hu : users (setUser "628111@c.us" blockedUser initialBot) !! "628111@c.us"
               = Some blockedUser) by (vm_compute; reflexivity).
  exact (proj1 (blocked_sender_ignored "628111@c.us" "/klaim" day2
                  (setUser "628111@c.us" blockedUser initialBot) blockedUser
                  Hu eq_refl)).
Defined.

(** ** Whole conversations *)

(** Claim, answer in lower case with blanks around, claim again. *)
Example claim_conversation :
  repliesOf (snd (run (claimScenario ++
                         [Message "628111@c.us" " k3x9qz " day1;
                          Message "628111@c.us" "/klaim" day1])%list initialBot))
  = [RWelcome; RCaptchaClaim sampleToken; RCaptchaOk; RClaimReward 300 300;
     RMenu false; RAlreadyClaimed].
Proof. vm_compute. reflexivity. Qed.

(** The deadline passes, then the token arrives: it is ordinary chat. *)
Example expiry_then_answer :
  repliesOf (snd (run (taskScenario ++
                         [TimerFires 1%positive;
                          Message "628111@c.us" sampleToken day1])%list initialBot))
  = [RWelcome; RAdminLogin; RTaskAdded 1; RWelcome; RCaptchaTask 5 sampleToken;
     RTimeout; RAiText "halo"].
Proof. vm_compute. reflexivity. Qed.

(** The token arrives, then the timer is asked to fire: it is gone. *)
Example answer_then_expiry :
  repliesOf (snd (run (taskScenario ++
                         [Message "628111@c.us" sampleToken day1;
                          TimerFires 1%positive])%list initialBot))
  = [RWelcome; RAdminLogin; RTaskAdded 1; RWelcome; RCaptchaTask 5 sampleToken;
     RCaptchaOk; RTaskReward 150 150; RMenu false].
Proof. vm_compute. reflexivity. Qed.

(** The next day the claim is open again. *)
Example claim_next_day :
  repliesOf (snd (run (claimScenario ++
                         [Message "628111@c.us" sampleToken day1;
                          Message "628111@c.us" "/klaim" day2])%list initialBot))
  = [RWelcome; RCaptchaClaim sampleToken; RCaptchaOk; RClaimReward 300 300;
     RMenu false; RCaptchaClaim sampleToken].
Proof. vm_compute. reflexivity. Qed.

(** * Further properties of the handlers *)

(** ** The four ways through [handleMessage] *)

Lemma handleMessage_unknown from body e b :
  users b !! from = None ->
  handleMessage from body e b
  = (fst (handleState from (newUser (today e)) body e
            (setUser from (newUser (today e)) b)),
     [WriteUsers (users (setUser from (newUser (today e)) b));
      Reply from RWelcome]
     ++ snd (handleState from (newUser (today e)) body e
               (setUser from (newUser (today e)) b)))%list.
Proof.
  intros Hu. unfold handleMessage. rewrite Hu. simpl. rewrite String.eqb_refl.
  now destruct (handleState from _ body e _).
Qed.

(** All the handlers that [handleState] can reach, unfolded. *)
Ltac unfold_handlers :=
  unfold handleState, verifyCaptcha, clearTimeout, handleGameInput, dispatch,
    getAiResponse, handleClaim, handleListAvailableTasks, handleSelesai,
    handleImageGeneration, handleVideoGeneration, startGame, handleLoginAdmin,
    handleListUsers, handleBlockUser, handleUnblockUser, handleSetBlocked,
    handleDeleteUser, handleAddTugas, handleListAllTasks, handleDeleteTask,
    handleSetBonus, unknownCommand, checkAdmin, showMenu.

(** ** A sender who is not an admin acts on the own record only *)

Lemma handleState_local from u body e b :
  isAdmin u = false ->
  (forall k, k <> from ->
     users (fst (handleState from u body e b)) !! k = users b !! k)
  /\ tasks (fst (handleState from u body e b)) = tasks b
  /\ config (fst (handleState from u body e b)) = config b.
Proof.
  intros Ha. unfold_handlers. rewrite Ha.
  repeat case_match; simpl;
    (split; [intros k Hk; rewrite ?lookup_insert_ne by congruence; reflexivity
            | split; reflexivity]).
Qed.

(** X1.  A message from a sender who is unknown or not an admin leaves every
    other record, the task catalog and the configuration as they were,
    whatever the message says. *)
Theorem non_admin_message_is_local
    (from body : string) (e : Env) (b : AltoBot) :
  (forall u, users b !! from = Some u -> isAdmin u = false) ->
  (forall k, k <> from ->
     users (fst (handleMessage from body e b)) !! k = users b !! k)
  /\ tasks (fst (handleMessage from body e b)) = tasks b
  /\ config (fst (handleMessage from body e b)) = config b.
Proof.
  intros Hna.
  destruct (users b !! from) as [u|] eqn:Hu.
  - specialize (Hna u eq_refl).
    destruct (isBlocked u) eqn:Hb.
    { rewrite (handleMessage_blocked _ _ _ _ _ Hu Hb). auto. }
    destruct (String.eqb (lastLogin u) (today e)) eqn:Hd.
    + apply String.eqb_eq in Hd. rewrite (handleMessage_same_day _ _ _ _ _ Hu Hb Hd).
      now apply handleState_local.
    + apply String.eqb_neq in Hd. rewrite (handleMessage_new_day _ _ _ _ _ Hu Hb Hd).
      destruct (handleState_local from (dailyReset (today e) u) body e
                  (setUser from (dailyReset (today e) u) b) Hna) as (H1 & H2 & H3).
      split; [|now split].
      intros k Hk. rewrite (H1 k Hk). simpl. now rewrite lookup_insert_ne.
  - rewrite (handleMessage_unknown _ _ _ _ Hu). simpl.
    destruct (handleState_local from (newUser (today e)) body e
                (setUser from (newUser (today e)) b) eq_refl) as (H1 & H2 & H3).
    split; [|now split].
    intros k Hk. rewrite (H1 k Hk). simpl. now rewrite lookup_insert_ne.
Qed.

Lemma non_admin_message_is_local_witness :
  tasks (fst (handleMessage "628111@c.us" "/hapustugas 1" day1
                (fst (run taskScenario initialBot))))
  = tasks (fst (run taskScenario initialBot)).
Proof.
  assert (H : forall u, users (fst (run taskScenario initialBot)) !! "628111@c.us"
                        = Some u -> isAdmin u = false).
  { intros u Hu. rewrite taskScenario_state in Hu. now inversion Hu. }
  exact (proj1 (proj2 (non_admin_message_is_local "628111@c.us" "/hapustugas 1"
                         day1 (fst (run taskScenario initialBot)) H))).
Defined.

(** ** The admin gate *)

(** X2.  Every admin command sent by a sender who is not an admin is
    answered with the refusal and nothing else happens: the bot is unchanged
    and nothing is written. *)
Theorem admin_gate
    (from body : string) (u : User) (e : Env) (b : AltoBot) (c : Command) :
  isAdmin u = false ->
  selects body c ->
  isAdminCommand c = true ->
  dispatch from u body e b = (b, [Reply from RAdminOnly]).
Proof.
  intros Ha [Hs Hc] Hadm. unfold dispatch. rewrite Hs, Hc. simpl.
  destruct c; try discriminate Hadm; unfold_handlers; now rewrite Ha.
Qed.

Lemma admin_gate_witness :
  dispatch "628111@c.us" (newUser (today day1)) "/setbonus 1 1000000" day1 initialBot
  = (initialBot, [Reply "628111@c.us" RAdminOnly]).
Proof.
  exact (admin_gate "628111@c.us" "/setbonus 1 1000000" (newUser (today day1))
           day1 initialBot CmdSetBonus eq_refl (conj eq_refl eq_refl) eq_refl).
Defined.

(** ** The bonus range *)

(** X3.  For an admin, [handleSetBonus] answers with the usage text and
    changes nothing when a bound is not a number or the lower bound exceeds
    the upper one.  Otherwise it stores the two bounds, keeps the password,
    the users and the catalog, and writes the configuration; from then on
    the reward of a correctly answered claim lies between the new bounds. *)
Theorem setBonus_effect
    (from : string) (u : User) (minStr maxStr : option string) (b : AltoBot) :
  isAdmin u = true ->
  (Js.parseInt minStr = None \/ Js.parseInt maxStr = None
   \/ (exists lo hi, Js.parseInt minStr = Some lo /\ Js.parseInt maxStr = Some hi
                     /\ hi < lo) ->
   handleSetBonus from u minStr maxStr b = (b, [Reply from RSetBonusUsage]))
  /\ (forall lo hi,
        Js.parseInt minStr = Some lo -> Js.parseInt maxStr = Some hi -> lo <= hi ->
        let b' := fst (handleSetBonus from u minStr maxStr b) in
        snd (handleSetBonus from u minStr maxStr b)
        = [WriteConfig (config b'); Reply from (RBonusSet lo hi)]
        /\ dailyBonus (config b') = {| min := lo; max := hi |}
        /\ adminPassword (config b') = adminPassword (config b)
        /\ users b' = users b /\ tasks b' = tasks b /\ timers b' = timers b
        /\ forall who w input a e,
            isWaiting (captchaState w) = true ->
            type (captchaState w) = Some TypeClaim ->
            answer (captchaState w) = Some a ->
            String.eqb (Js.toUpperCase (Js.trim input)) a = true ->
            validEnv e ->
            exists w' reward,
              users (fst (verifyCaptcha who w input e b')) !! who = Some w'
              /\ lo <= reward <= hi
              /\ balance w' = balance w + reward).
Proof.
  intros Ha. split.
  - intros H. unfold handleSetBonus, checkAdmin. rewrite Ha.
    destruct H as [->|[H|(lo & hi & -> & -> & Hlt)]].
    + reflexivity.
    + rewrite H. now destruct (Js.parseInt minStr).
    + apply Z.ltb_lt in Hlt. now rewrite Hlt.
  - intros lo hi Hlo Hhi Hle b'. subst b'.
    unfold handleSetBonus, checkAdmin. rewrite Ha, Hlo, Hhi.
    assert (Hlt : (hi <? lo) = false) by (apply Z.ltb_ge; lia).
    rewrite Hlt. simpl. repeat (split; [reflexivity|]).
    intros who w input a e Hw Hty Han Heq [H0 H1].
    unfold verifyCaptcha. rewrite Han, Heq, Hty. simpl.
    rewrite lookup_insert_eq. eexists. eexists.
    split; [reflexivity|]. split; [|reflexivity].
    now apply claim_reward_range.
Qed.

Lemma setBonus_effect_witness :
  dailyBonus (config (fst (handleSetBonus "628999@c.us" adminUser (Some "10")
                             (Some "20") initialBot)))
  = {| min := 10; max := 20 |}.
Proof.
  assert (Hle : 10 <= 20) by discriminate.
  exact (proj1 (proj2 (proj2 (setBonus_effect "628999@c.us" adminUser (Some "10")
                                (Some "20") initialBot eq_refl)
                         10 20 eq_refl eq_refl Hle))).
Defined.

(** ** From [handleState] to a whole event *)

Section RecordStep.

(** A relation between the record of a sender before and after the
    mode-specific handling of a message, which may depend on the
    configuration and on the inputs of the message. *)
Variable R : Config -> Env -> User -> User -> Prop.

Hypothesis R_refl : forall c e u, R c e u u.

Hypothesis R_handleState :
  forall from u body e b,
    users b !! from = Some u ->
    forall k u', users (fst (handleState from u body e b)) !! k = Some u' ->
    exists u0, users b !! k = Some u0 /\ R (config b) e u0 u'.

(** A record that is there before and after a message is related to
    itself, or, when it is the sender's and bears another date, to its
    daily reset. *)
Lemma handleMessage_record from body e b k u u' :
  users b !! k = Some u ->
  users (fst (handleMessage from body e b)) !! k = Some u' ->
  R (config b) e u u'
  \/ (k = from /\ isBlocked u = false /\ lastLogin u <> today e
      /\ R (config b) e (dailyReset (today e) u) u').
Proof.
  intros Hu Hu'.
  destruct (users b !! from) as [w|] eqn:Hw.
  - destruct (isBlocked w) eqn:Hb.
    { rewrite (handleMessage_blocked _ _ _ _ _ Hw Hb) in Hu'. simpl in Hu'.
      left. replace u' with u by congruence. apply R_refl. }
    destruct (String.eqb (lastLogin w) (today e)) eqn:Hd.
    + apply String.eqb_eq in Hd.
      rewrite (handleMessage_same_day _ _ _ _ _ Hw Hb Hd) in Hu'.
      destruct (R_handleState _ _ _ _ _ Hw _ _ Hu') as (u0 & Hu0 & HR).
      left. replace u with u0 by congruence. exact HR.
    + apply String.eqb_neq in Hd.
      rewrite (handleMessage_new_day _ _ _ _ _ Hw Hb Hd) in Hu'.
      assert (Hw1 : users (setUser from (dailyReset (today e) w) b) !! from
                    = Some (dailyReset (today e) w)) by apply lookup_insert_eq.
      destruct (R_handleState _ _ _ _ _ Hw1 _ _ Hu') as (u0 & Hu0 & HR).
      simpl in Hu0, HR. apply lookup_insert_Some in Hu0.
      destruct Hu0 as [[<- <-]|[_ Hu0]].
      * right. replace u with w by congruence. auto.
      * left. replace u with u0 by congruence. exact HR.
  - rewrite (handleMessage_unknown _ _ _ _ Hw) in Hu'. simpl in Hu'.
    assert (Hw1 : users (setUser from (newUser (today e)) b) !! from
                  = Some (newUser (today e))) by apply lookup_insert_eq.
    destruct (R_handleState _ _ _ _ _ Hw1 _ _ Hu') as (u0 & Hu0 & HR).
    simpl in Hu0, HR. apply lookup_insert_Some in Hu0.
    destruct Hu0 as [[<- _]|[_ Hu0]]; [congruence|].
    left. replace u with u0 by congruence. exact HR.
Qed.

End RecordStep.

(** A timer that fires leaves a record as it is or takes its challenge. *)
Lemma fireTimer_record t b k u u' :
  users b !! k = Some u ->
  users (fst (fireTimer t b)) !! k = Some u' ->
  u' = u \/ u' = setCaptchaState notWaiting u.
Proof.
  intros Hu Hu'. unfold fireTimer in Hu'.
  destruct (timers b !! t) as [tm|]; [|simpl in Hu'; left; congruence].
  unfold timeoutCallback in Hu'. simpl in Hu'.
  destruct (users b !! timerFrom tm) as [w|] eqn:Hw;
    [|simpl in Hu'; left; congruence].
  destruct (isWaiting _ && _); simpl in Hu'; [|left; congruence].
  apply lookup_insert_Some in Hu'.
  destruct Hu' as [[<- <-]|[_ Hu']]; [right|left]; congruence.
Qed.

(** ** Becoming an admin *)

Lemma handleState_isAdmin from u body e b :
  users b !! from = Some u ->
  forall k u', users (fst (handleState from u body e b)) !! k = Some u' ->
  exists u0, users b !! k = Some u0 /\ (isAdmin u0 = true -> isAdmin u' = true).
Proof.
  intros Hu. unfold_handlers. frame_cases.
Qed.

(** X4.  [handleLoginAdmin] sets [isAdmin] exactly when the argument equals
    the configured password, and then changes nothing else in the record; a
    wrong or missing password changes nothing.  No event ever takes the
    flag away: a record that is an admin's and is still there after an event
    is an admin's. *)
Theorem admin_login_and_persistence :
  (forall from u password b,
      (password = Some (adminPassword (config b)) ->
       handleLoginAdmin from u password b
       = (setUser from (setIsAdmin true u) b,
          [WriteUsers (users (setUser from (setIsAdmin true u) b));
           Reply from RAdminLogin]))
      /\ (password <> Some (adminPassword (config b)) ->
          handleLoginAdmin from u password b = (b, [Reply from RAdminWrongPassword])))
  /\ (forall ev b k u u',
        users b !! k = Some u -> isAdmin u = true ->
        users (fst (step ev b)) !! k = Some u' ->
        isAdmin u' = true).
Proof.
  split.
  - intros from u password b. unfold handleLoginAdmin. split.
    + intros ->. now rewrite String.eqb_refl.
    + intros Hne. destruct password as [p|]; [|reflexivity].
      destruct (String.eqb p (adminPassword (config b))) eqn:E; [|reflexivity].
      apply String.eqb_eq in E. congruence.
  - intros [from body e|t] b k u u' Hu Ha Hu'; simpl in Hu'.
    + destruct (handleMessage_record
                  (fun _ _ u0 u1 => isAdmin u0 = true -> isAdmin u1 = true)
                  (fun _ _ _ H => H) handleState_isAdmin _ _ _ _ _ _ _ Hu Hu')
        as [H|(_ & _ & _ & H)]; now apply H.
    + destruct (fireTimer_record _ _ _ _ _ Hu Hu') as [->| ->]; exact Ha.
Qed.

Lemma admin_login_and_persistence_witness :
  users (fst (step (Message "628999@c.us" "/loginadmin salah" day2)
                (fst (run catalogScenario initialBot)))) !! "628999@c.us"
  = Some (dailyReset (today day2) adminUser)
  /\ isAdmin (dailyReset (today day2) adminUser) = true.
Proof.
  assert (Hu : users (fst (run catalogScenario initialBot)) !! "628999@c.us"
               = Some adminUser) by (vm_compute; reflexivity).
  assert (Hu' : users (fst (step (Message "628999@c.us" "/loginadmin salah" day2)
                              (fst (run catalogScenario initialBot)))) !! "628999@c.us"
                = Some (dailyReset (today day2) adminUser))
    by (vm_compute; reflexivity).
  split; [exact Hu'|].
  exact (proj2 admin_login_and_persistence
           (Message "628999@c.us" "/loginadmin salah" day2)
           (fst (run catalogScenario initialBot)) "628999@c.us" adminUser
           (dailyReset (today day2) adminUser) Hu eq_refl Hu').
Defined.

(** ** Timers and challenges *)

Lemma findTask_id n ts t : findTask n ts = Some t -> id t = n.
Proof.
  unfold findTask. intros H. apply find_some in H as [_ H]. now apply Z.eqb_eq.
Qed.
















(** What a firing timer does when its sender waits on its task. *)
Lemma fireTimer_clears tid tm b k u t :
  timers b !! tid = Some tm -> timerFrom tm = k -> timerTaskId tm = id t ->
  users b !! k = Some u -> isWaiting (captchaState u) = true ->
  task (captchaState u) = Some t ->
  fireTimer tid b
  = (setUser k (setCaptchaState notWaiting u)
       (setTimers (delete tid (timers b)) (nextTimer b) b),
     [WriteUsers (<[k := setCaptchaState notWaiting u]> (users b));
      Reply k RTimeout]).
Proof.
  intros Htm Hf Hn Hu Hw Ht. unfold fireTimer. rewrite Htm, Hf, Hn.
  unfold timeoutCallback. simpl. now rewrite Hu, Hw, Ht, Z.eqb_refl.
Qed.


Lemma taskScenario_reachable : reachable (fst (run taskScenario initialBot)).
Proof. apply reachable_run; [constructor | apply taskScenario_valid]. Qed.


(** X6.  [handleDeleteUser] does not cancel the timer of the record it
    deletes, and the deadline callback compares the sender and the task id
    only.  So a pending timer for a sender and a task clears whatever
    challenge that sender has for that task when it fires, also one that was
    started later with a timer of its own, which stays pending. *)
Theorem stale_timer_clears_later_challenge
    (b : AltoBot) (k : string) (u : User) (t : Task)
    (old own : positive) (tm : Timer) :
  users b !! k = Some u ->
  isWaiting (captchaState u) = true ->
  task (captchaState u) = Some t ->
  timerId (captchaState u) = Some own ->
  timers b !! old = Some tm ->
  timerFrom tm = k -> timerTaskId tm = id t ->
  old <> own ->
  (forall admin ua arg,
      timers (fst (handleDeleteUser admin ua arg b)) = timers b)
  /\ users (fst (fireTimer old b)) !! k = Some (setCaptchaState notWaiting u)
  /\ snd (fireTimer old b)
     = [WriteUsers (users (fst (fireTimer old b))); Reply k RTimeout]
  /\ timers (fst (fireTimer old b)) !! own = timers b !! own.
Proof.
  intros Hu Hw Ht Hown Hold Hf Hn Hne.
  split.
  { intros admin ua arg. unfold handleDeleteUser, checkAdmin.
    repeat case_match; reflexivity. }
  rewrite (fireTimer_clears old tm b k u t Hold Hf Hn Hu Hw Ht). simpl.
  split; [apply lookup_insert_eq|]. split; [reflexivity|].
  now apply lookup_delete_ne.
Qed.

Lemma staleTimerScenario_valid : Forall validEvent staleTimerScenario.
Proof. repeat constructor; apply validEnv_envAt. Qed.

Lemma stale_timer_clears_later_challenge_witness :
  reachable (fst (run staleTimerScenario initialBot))
  /\ repliesOf (snd (fireTimer 1%positive (fst (run staleTimerScenario initialBot))))
     = [RTimeout]
  /\ timers (fst (fireTimer 1%positive (fst (run staleTimerScenario initialBot))))
       !! 2%positive
     = Some {| timerFrom := "628111@c.us"; timerTaskId := 1; delayMs := 300000 |}.
Proof.
  split; [apply reachable_run; [constructor | apply staleTimerScenario_valid]|].
  assert (Hu : users (fst (run staleTimerScenario initialBot)) !! "628111@c.us"
               = Some (setCaptchaState
                         {| isWaiting := true; type := Some TypeTask;
                            task := Some sampleTask; answer := Some sampleToken;
                            timerId := Some 2%positive |} (newUser (today day1))))
    by (vm_compute; reflexivity).
  assert (Hold : timers (fst (run staleTimerScenario initialBot)) !! 1%positive
                 = Some {| timerFrom := "628111@c.us"; timerTaskId := 1;
                           delayMs := 300000 |}) by (vm_compute; reflexivity).
  assert (Hne : 1%positive <> 2%positive) by discriminate.
  destruct (stale_timer_clears_later_challenge _ _ _ sampleTask 1%positive
              2%positive _ Hu eq_refl eq_refl eq_refl Hold eq_refl eq_refl Hne)
    as (_ & _ & Heff & Hown).
  split.
  - rewrite Heff. reflexivity.
  - rewrite Hown. vm_compute. reflexivity.
Defined.

(** ** Blocking and unblocking *)

Lemma append_cons c (s t : string) :
  (String c s ++ t = String c (s ++ t))%string.
Proof. reflexivity. Qed.

Lemma string_append_assoc (s1 s2 s3 : string) :
  ((s1 ++ s2) ++ s3 = s1 ++ (s2 ++ s3))%string.
Proof.
  induction s1 as [|c s1 IH]; [reflexivity|].
  now rewrite !append_cons, IH.
Qed.

Lemma rev_app_append s1 s2 acc :
  String.rev_app (s1 ++ s2) acc = String.rev_app s2 (String.rev_app s1 acc).
Proof.
  revert acc. induction s1 as [|c s1 IH]; intros acc; [reflexivity|].
  rewrite append_cons. simpl. apply IH.
Qed.

Lemma rev_app_acc s acc :
  String.rev_app s acc = (String.rev_app s EmptyString ++ acc)%string.
Proof.
  revert acc. induction s as [|c s IH]; intros acc; simpl; [reflexivity|].
  rewrite IH, (IH (String c EmptyString)).
  now rewrite string_append_assoc.
Qed.

Lemma prefix_append p q : String.prefix p (p ++ q) = true.
Proof.
  induction p as [|c p IH]; [now destruct q|].
  rewrite append_cons. simpl.
  destruct (ascii_dec c c); [exact IH | congruence].
Qed.

Lemma endsWith_append x sfx : Js.endsWith (x ++ sfx) sfx = true.
Proof.
  unfold Js.endsWith, String.rev.
  rewrite rev_app_append, (rev_app_acc sfx (String.rev_app x EmptyString)).
  apply prefix_append.
Qed.

Lemma targetIdOf_suffix x : Js.endsWith (targetIdOf x) "@c.us" = true.
Proof.
  unfold targetIdOf. destruct (Js.endsWith x "@c.us") eqn:E; [exact E|].
  apply endsWith_append.
Qed.

Lemma setIsBlocked_undo target flag :
  isBlocked target = flag ->
  setIsBlocked flag (setIsBlocked (negb flag) target) = target.
Proof. destruct target. simpl. now intros ->. Qed.

Lemma setUser_undo k u u' b :
  users b !! k = Some u -> setUser k u (setUser k u' b) = b.
Proof.
  intros Hu. destruct b as [us ts c ch tm n]. unfold setUser, setUsers. simpl in *.
  f_equal. rewrite insert_insert_eq. now apply insert_id.
Qed.

(** X7.  The id an admin names is completed with the suffix [@c.us] unless
    it has it, and naming the completed id gives the same record.  For an
    admin and a known target, [handleBlockUser] changes the [isBlocked] flag
    of the target and nothing else in the bot; from then on every message of
    the target is dropped without reply; and [handleUnblockUser] gives back
    the bot as it was before the block.  An unknown target changes
    nothing. *)
Theorem block_and_unblock
    (from : string) (u : User) (x : string) (b : AltoBot) :
  isAdmin u = true ->
  Js.endsWith (targetIdOf x) "@c.us" = true
  /\ targetIdOf (targetIdOf x) = targetIdOf x
  /\ (users b !! targetIdOf x = None ->
      handleBlockUser from u (Some x) b
      = (b, [Reply from (RUserNotFound (targetIdOf x))])
      /\ handleUnblockUser from u (Some x) b
         = (b, [Reply from (RUserNotFound (targetIdOf x))]))
  /\ (forall target,
        users b !! targetIdOf x = Some target ->
        let b1 := fst (handleBlockUser from u (Some x) b) in
        b1 = setUser (targetIdOf x) (setIsBlocked true target) b
        /\ snd (handleBlockUser from u (Some x) b)
           = [WriteUsers (users b1); Reply from (RUserBlocked (targetIdOf x))]
        /\ (forall body e, handleMessage (targetIdOf x) body e b1 = (b1, []))
        /\ (isBlocked target = false ->
            forall from' u', isAdmin u' = true ->
              fst (handleUnblockUser from' u' (Some x) b1) = b)).
Proof.
  intros Ha.
  pose proof (targetIdOf_suffix x) as Hs.
  split; [exact Hs|]. split.
  { unfold targetIdOf at 1. now rewrite Hs. }
  split.
  - intros Hn. unfold handleBlockUser, handleUnblockUser, handleSetBlocked, checkAdmin.
    now rewrite Ha, Hn.
  - intros target Ht b1. subst b1.
    unfold handleBlockUser, handleUnblockUser, handleSetBlocked, checkAdmin.
    rewrite Ha, Ht. simpl. split; [reflexivity|]. split; [reflexivity|]. split.
    + intros body e.
      apply (handleMessage_blocked _ _ _ _ (setIsBlocked true target));
        [apply lookup_insert_eq | reflexivity].
    + intros Hb from' u' Ha'. rewrite Ha'. simpl. rewrite lookup_insert_eq. simpl.
      change true with (negb false) at 1.
      rewrite (setIsBlocked_undo target false Hb).
      now apply setUser_undo.
Qed.

Lemma block_and_unblock_witness :
  fst (handleUnblockUser "628999@c.us" adminUser (Some "628111")
         (fst (handleBlockUser "628999@c.us" adminUser (Some "628111")
                 (fst (run taskScenario initialBot)))))
  = fst (run taskScenario initialBot).
Proof.
  assert (Ht : users (fst (run taskScenario initialBot)) !! targetIdOf "628111"
               = Some waitingOnTask) by (vm_compute; reflexivity).
  exact (proj2 (proj2 (proj2 (proj2 (proj2 (proj2
    (block_and_unblock "628999@c.us" adminUser "628111"
       (fst (run taskScenario initialBot)) eq_refl))) waitingOnTask Ht)))
    eq_refl "628999@c.us" adminUser eq_refl).
Defined.

(** ** Unknown senders and deleted records *)

(** X8.  A sender without a record gets one with balance 0, nothing claimed
    or completed, not an admin, not blocked and idle; it is written and the
    welcome is sent before the same message is handled as that of an idle
    sender.  For an admin and a known target, [handleDeleteUser] removes the
    target's record and nothing else, so the target's next message meets
    this case, whatever the record held: on a claim message the bonus of the
    day can be asked for again. *)
Theorem unknown_sender_and_deletion :
  (forall from body e b,
      users b !! from = None ->
      handleMessage from body e b
      = (fst (dispatch from (newUser (today e)) body e
                (setUser from (newUser (today e)) b)),
         [WriteUsers (<[from := newUser (today e)]> (users b));
          Reply from RWelcome]
         ++ snd (dispatch from (newUser (today e)) body e
                   (setUser from (newUser (today e)) b)))%list)
  /\ (forall from u x b target,
        isAdmin u = true -> users b !! targetIdOf x = Some target ->
        let b1 := fst (handleDeleteUser from u (Some x) b) in
        users b1 = delete (targetIdOf x) (users b)
        /\ tasks b1 = tasks b /\ config b1 = config b /\ timers b1 = timers b
        /\ snd (handleDeleteUser from u (Some x) b)
           = [WriteUsers (users b1); Reply from (RUserDeleted (targetIdOf x))]
        /\ forall body e,
            selects body CmdKlaim ->
            repliesOf (snd (handleMessage (targetIdOf x) body e b1))
            = [RWelcome; RCaptchaClaim (generateCaptcha 6 (random36 e))]).
Proof.
  split.
  - intros from body e b Hu. rewrite (handleMessage_unknown _ _ _ _ Hu).
    reflexivity.
  - intros from u x b target Ha Ht b1. subst b1.
    unfold handleDeleteUser, checkAdmin. rewrite Ha, Ht. simpl.
    repeat (split; [reflexivity|]).
    intros body e Hs.
    rewrite handleMessage_unknown by (simpl; apply lookup_delete_eq).
    unfold handleState. simpl.
    rewrite (dispatch_selects _ _ _ _ _ _ Hs). reflexivity.
Qed.

Lemma unknown_sender_and_deletion_witness :
  repliesOf (snd (handleMessage "628111@c.us" "/klaim" day1 initialBot))
  = [RWelcome; RCaptchaClaim sampleToken].
Proof.
  rewrite (proj1 unknown_sender_and_deletion "628111@c.us" "/klaim" day1
             initialBot (lookup_empty _)).
  reflexivity.
Defined.

(** ** The catalog stays well formed *)

Lemma addTugas_guard desc d :
  (String.eqb desc EmptyString || (d <=? 0)) = false ->
  0 < d /\ desc <> EmptyString.
Proof.
  intros H. apply orb_false_iff in H as [H1 H2].
  split; [now apply Z.leb_gt in H2 | now apply String.eqb_neq in H1].
Qed.

(** How an event can change the catalog. *)
Lemma handleState_tasks from u body e b :
  tasks (fst (handleState from u body e b)) = tasks b
  \/ (exists r d desc,
        0 < d /\ desc <> EmptyString
        /\ tasks (fst (handleState from u body e b))
           = (tasks b ++ [{| id := newTaskId (tasks b); bonus := r; duration := d;
                             description := desc |}])%list)
  \/ (exists n ts, spliceTask n (tasks b) = Some ts
                   /\ tasks (fst (handleState from u body e b)) = ts).
Proof.
  unfold_handlers.
  repeat case_match; simpl; try (left; reflexivity); try (left; congruence).
  all: try (right; right; do 2 eexists; split; [eassumption | reflexivity]).
  all: right; left; do 3 eexists; (split; [|split]); [ | |reflexivity];
    match goal with H : (_ || _) = false |- _ =>
      destruct (addTugas_guard _ _ H) end; assumption.
Qed.

Lemma step_tasks ev b :
  tasks (fst (step ev b)) = tasks b
  \/ (exists r d desc,
        0 < d /\ desc <> EmptyString
        /\ tasks (fst (step ev b))
           = (tasks b ++ [{| id := newTaskId (tasks b); bonus := r; duration := d;
                             description := desc |}])%list)
  \/ (exists n ts, spliceTask n (tasks b) = Some ts /\ tasks (fst (step ev b)) = ts).
Proof.
  destruct ev as [from body e|t]; simpl.
  - destruct (users b !! from) as [u|] eqn:Hu.
    + destruct (isBlocked u) eqn:Hb.
      { rewrite (handleMessage_blocked _ _ _ _ _ Hu Hb). now left. }
      destruct (String.eqb (lastLogin u) (today e)) eqn:Hd.
      * apply String.eqb_eq in Hd. rewrite (handleMessage_same_day _ _ _ _ _ Hu Hb Hd).
        apply handleState_tasks.
      * apply String.eqb_neq in Hd. rewrite (handleMessage_new_day _ _ _ _ _ Hu Hb Hd).
        apply (handleState_tasks from _ body e (setUser from _ b)).
    + rewrite (handleMessage_unknown _ _ _ _ Hu). simpl.
      apply (handleState_tasks from _ body e (setUser from _ b)).
  - left. unfold fireTimer, timeoutCallback. repeat case_match; reflexivity.
Qed.

Lemma spliceTask_sub n ts ts' :
  spliceTask n ts = Some ts' ->
  (forall t, In t ts' -> In t ts)
  /\ (List.NoDup (List.map id ts) ->
      List.NoDup (List.map id ts') /\ ~ In n (List.map id ts')).
Proof.
  revert ts'. induction ts as [|t0 ts IH]; intros ts'; simpl; [discriminate|].
  destruct (id t0 =? n) eqn:E.
  - intros [= <-]. split; [auto|]. intros Hnd. apply NoDup_cons_iff in Hnd as [Hni Hnd].
    apply Z.eqb_eq in E. subst n. auto.
  - destruct (spliceTask n ts) as [r|]; [|discriminate]. intros [= <-].
    destruct (IH r eq_refl) as [Hin Hnd'].
    split; [intros t [->|Ht]; [now left | right; auto]|].
    intros Hnd. simpl. apply NoDup_cons_iff in Hnd as [Hni Hnd].
    destruct (Hnd' Hnd) as [H1 H2]. split.
    + constructor; [|exact H1]. intros Hc. apply Hni.
      apply in_map_iff in Hc as (t & Ht & Htin). apply in_map_iff. eauto.
    + apply Z.eqb_neq in E. intros [Hc|Hc]; [auto | auto].
Qed.

Lemma NoDup_snoc (l : list Z) (x : Z) :
  List.NoDup l -> ~ In x l -> List.NoDup (l ++ [x])%list.
Proof.
  induction l as [|y l IH]; simpl; intros Hnd Hx.
  - constructor; [intros [] | constructor].
  - apply List.NoDup_cons_iff in Hnd as [Hy Hnd]. constructor.
    + intros Hin. apply in_app_or in Hin as [Hin|[->|[]]]; [auto|].
      apply Hx. now left.
    + apply IH; [exact Hnd|]. intros Hin. apply Hx. now right.
Qed.

Lemma catalogOk_add ts r d desc :
  catalogOk ts -> 0 < d -> desc <> EmptyString ->
  catalogOk (ts ++ [{| id := newTaskId ts; bonus := r; duration := d;
                       description := desc |}])%list.
Proof.
  intros [Hnd Hall] Hd Hdesc. split.
  - rewrite map_app. simpl. apply NoDup_snoc; [exact Hnd|].
    intros Hin. apply in_map_iff in Hin as (t & Ht & Htin).
    destruct ts as [|t0 ts]; [destruct Htin|].
    assert (Hne : t0 :: ts <> []) by discriminate.
    destruct (newTaskId_nonempty _ Hne) as [_ Hlt]. specialize (Hlt t Htin). lia.
  - intros t Hin. apply in_app_or in Hin as [Hin|[<-|[]]]; [now apply Hall|].
    simpl. split; [|now split].
    destruct ts as [|t0 ts]; [reflexivity|].
    assert (Hne : t0 :: ts <> []) by discriminate.
    destruct (newTaskId_nonempty _ Hne) as [_ Hlt].
    specialize (Hlt t0 (or_introl eq_refl)).
    destruct (Hall t0 (or_introl eq_refl)) as [H1 _]. lia.
Qed.

Lemma findTask_None n ts : ~ In n (List.map id ts) -> findTask n ts = None.
Proof.
  intros Hn. unfold findTask.
  destruct (List.find _ ts) as [t|] eqn:E; [|reflexivity].
  apply find_some in E as [Hin E]. apply Z.eqb_eq in E.
  exfalso. apply Hn. apply in_map_iff. eauto.
Qed.

Lemma reachable_catalogOk b : reachable b -> catalogOk (tasks b).
Proof.
  induction 1 as [|ev b Hr IH Hv].
  - split; [constructor | intros t []].
  - destruct (step_tasks ev b) as [->|[(r & d & desc & Hd & Hdesc & ->)
                                      |(n & ts & Hs & ->)]].
    + exact IH.
    + now apply catalogOk_add.
    + destruct IH as [Hnd Hall]. destruct (spliceTask_sub _ _ _ Hs) as [Hin Hnd'].
      split; [now apply Hnd' | intros t Ht; apply Hall; auto].
Qed.

(** X9.  In every state the bot can reach, the tasks of the catalog have
    pairwise distinct ids, all at least 1, positive durations and non-empty
    descriptions.  Hence looking a catalog task up by its id finds that
    task, and once an admin has deleted a task, [handleSelesai] answers that
    the task does not exist and starts nothing. *)
Theorem catalog_well_formed (b : AltoBot) :
  reachable b ->
  catalogOk (tasks b)
  /\ (forall t, In t (tasks b) -> findTask (id t) (tasks b) = Some t)
  /\ (forall admin ua arg n,
        isAdmin ua = true -> Js.parseInt arg = Some n ->
        In n (List.map id (tasks b)) ->
        let b1 := fst (handleDeleteTask admin ua arg b) in
        snd (handleDeleteTask admin ua arg b)
        = [WriteTasks (tasks b1); Reply admin (RTaskDeleted n)]
        /\ findTask n (tasks b1) = None
        /\ forall from u arg' e,
            Js.parseInt arg' = Some n ->
            handleSelesai from u arg' e b1 = (b1, [Reply from RTaskNotFound])).
Proof.
  intros Hr. pose proof (reachable_catalogOk b Hr) as Hc.
  split; [exact Hc|]. destruct Hc as [Hnd Hall]. split.
  - intros t Hin. unfold findTask.
    induction (tasks b) as [|t0 ts IH]; [destruct Hin|]. simpl in *.
    apply NoDup_cons_iff in Hnd as [Hni Hnd].
    destruct Hin as [->|Hin]; [now rewrite Z.eqb_refl|].
    destruct (id t0 =? id t) eqn:E.
    + apply Z.eqb_eq in E. exfalso. apply Hni. rewrite E. now apply in_map.
    + apply IH; auto.
  - intros admin ua arg n Ha Hp Hin b1. subst b1.
    unfold handleDeleteTask, checkAdmin. rewrite Ha, Hp.
    assert (Hf : exists t, findTask n (tasks b) = Some t).
    { unfold findTask. destruct (List.find _ (tasks b)) as [t|] eqn:E; [eauto|].
      apply in_map_iff in Hin as (t & Ht & Htin).
      pose proof (find_none _ _ E t Htin) as Hx. simpl in Hx.
      apply Z.eqb_neq in Hx. congruence. }
    destruct Hf as [t Hf]. destruct (spliceTask_found _ _ _ Hf) as [ts Hs].
    rewrite Hs. simpl. split; [reflexivity|].
    destruct (spliceTask_sub _ _ _ Hs) as [_ Hnd']. destruct (Hnd' Hnd) as [_ Hni].
    pose proof (findTask_None n ts Hni) as Hnone.
    split; [exact Hnone|].
    intros from u arg' e Hp'. unfold handleSelesai. rewrite Hp'. simpl.
    now rewrite Hnone.
Qed.

Lemma catalog_well_formed_witness :
  reachable (fst (run taskScenario initialBot))
  /\ findTask 1 (tasks (fst (run taskScenario initialBot))) = Some sampleTask.
Proof.
  split; [exact taskScenario_reachable|].
  apply (proj1 (proj2 (catalog_well_formed _ taskScenario_reachable)) sampleTask).
  vm_compute. left. reflexivity.
Defined.

(** ** One credit per task and day *)

Lemma includes_In x l : includes x l = true <-> In x l.
Proof.
  unfold includes. rewrite existsb_exists. split.
  - intros (y & Hin & E). apply Z.eqb_eq in E. now subst.
  - intros Hin. exists x. split; [exact Hin | apply Z.eqb_refl].
Qed.

Lemma includes_not_In x l : includes x l = false <-> ~ In x l.
Proof.
  rewrite <- includes_In. destruct (includes x l); split; intros; congruence.
Qed.

Lemma completedOk_frame u u' :
  completedTasksToday u' = completedTasksToday u ->
  task (captchaState u') = None \/ captchaState u' = captchaState u ->
  completedOk u -> completedOk u'.
Proof.
  unfold completedOk. intros -> [Hn| ->]; [|auto].
  intros [H1 _]. split; [exact H1|]. intros _ t Ht. congruence.
Qed.

Lemma completedOk_start u n t a tid ts :
  findTask n ts = Some t -> includes n (completedTasksToday u) = false ->
  completedOk u ->
  completedOk (setCaptchaState
                 {| isWaiting := true; type := Some TypeTask; task := Some t;
                    answer := Some a; timerId := Some tid |} u).
Proof.
  intros Hf Hi [H1 _]. split; [exact H1|]. simpl. intros _ t' [= <-].
  rewrite (findTask_id _ _ _ Hf). now apply includes_not_In.
Qed.

Lemma completedOk_credit u t x :
  isWaiting (captchaState u) = true -> task (captchaState u) = Some t ->
  completedOk u ->
  completedOk (setCompletedTasksToday (completedTasksToday u ++ [id t])%list
                 (setBalance x (setCaptchaState notWaiting u))).
Proof.
  intros Hw Ht [H1 H2]. split; simpl; [|discriminate].
  apply NoDup_snoc; [exact H1 | now apply H2].
Qed.

Lemma completedOk_reset d u : completedOk (dailyReset d u).
Proof. split; simpl; [constructor | intros _ t _ []]. Qed.

Lemma completedOk_newUser d : completedOk (newUser d).
Proof. split; simpl; [constructor | discriminate]. Qed.

Lemma handleState_completedOk from u body e b :
  (forall k w, users b !! k = Some w -> completedOk w) ->
  users b !! from = Some u ->
  forall k u', users (fst (handleState from u body e b)) !! k = Some u' ->
               completedOk u'.
Proof.
  intros HA Hu. pose proof (HA _ _ Hu) as Hc. unfold_handlers.
  repeat case_match; simpl; intros k u' Hk;
    repeat match goal with
      | H : _ !! _ = Some _ |- _ => rewrite lookup_insert_Some in H
      | H : _ !! _ = Some _ |- _ => rewrite lookup_delete_Some in H
      | H : _ \/ _ |- _ => destruct H
      | H : _ /\ _ |- _ => destruct H
      end;
    simplify_eq;
    first [ now eauto
          | eapply completedOk_start; eassumption
          | apply completedOk_credit; assumption
          | match goal with
            | Hw : users b !! _ = Some ?w |- _ =>
                apply (completedOk_frame w);
                [reflexivity | first [left; reflexivity | right; reflexivity]
                | now eauto]
            end ].
Qed.

Lemma fireTimer_origin t b k u' :
  users (fst (fireTimer t b)) !! k = Some u' ->
  exists u, users b !! k = Some u
            /\ (u' = u \/ u' = setCaptchaState notWaiting u).
Proof.
  intros Hu'. unfold fireTimer in Hu'.
  destruct (timers b !! t) as [tm|]; [|simpl in Hu'; eauto].
  unfold timeoutCallback in Hu'. simpl in Hu'.
  destruct (users b !! timerFrom tm) as [w|] eqn:Hw; [|simpl in Hu'; eauto].
  destruct (isWaiting _ && _); simpl in Hu'; [|eauto].
  apply lookup_insert_Some in Hu'.
  destruct Hu' as [[<- <-]|[_ Hu']]; eauto.
Qed.

Lemma step_completedOk ev b :
  (forall k w, users b !! k = Some w -> completedOk w) ->
  forall k u', users (fst (step ev b)) !! k = Some u' -> completedOk u'.
Proof.
  intros HA k u' Hk. destruct ev as [from body e|t]; simpl in Hk.
  - destruct (users b !! from) as [u|] eqn:Hu.
    + destruct (isBlocked u) eqn:Hb.
      { rewrite (handleMessage_blocked _ _ _ _ _ Hu Hb) in Hk. eauto. }
      destruct (String.eqb (lastLogin u) (today e)) eqn:Hd.
      * apply String.eqb_eq in Hd.
        rewrite (handleMessage_same_day _ _ _ _ _ Hu Hb Hd) in Hk.
        eapply handleState_completedOk; eauto.
      * apply String.eqb_neq in Hd.
        rewrite (handleMessage_new_day _ _ _ _ _ Hu Hb Hd) in Hk.
        eapply handleState_completedOk; [| |exact Hk]; [|apply lookup_insert_eq].
        intros k' w. simpl. rewrite lookup_insert_Some.
        intros [[_ <-]|[_ Hw]]; [apply completedOk_reset | eauto].
    + rewrite (handleMessage_unknown _ _ _ _ Hu) in Hk. simpl in Hk.
      eapply handleState_completedOk; [| |exact Hk]; [|apply lookup_insert_eq].
      intros k' w. simpl. rewrite lookup_insert_Some.
      intros [[_ <-]|[_ Hw]]; [apply completedOk_newUser | eauto].
  - destruct (fireTimer_origin _ _ _ _ Hk) as (u & Hu & [->| ->]); [eauto|].
    apply (completedOk_frame u); [reflexivity | left; reflexivity | eauto].
Qed.

(** X10.  In every state the bot can reach, no task id occurs twice among
    the completed tasks of a record, and the task of a challenge in flight
    is not among them: a record is credited for a task at most once between
    two daily resets. *)
Theorem completed_tasks_distinct (b : AltoBot) :
  reachable b ->
  forall k u, users b !! k = Some u ->
    List.NoDup (completedTasksToday u)
    /\ (isWaiting (captchaState u) = true ->
        forall t, task (captchaState u) = Some t ->
                  includes (id t) (completedTasksToday u) = false).
Proof.
  intros Hr.
  assert (H : forall k u, users b !! k = Some u -> completedOk u).
  { induction Hr as [|ev b Hr IH Hv].
    - intros k u. simpl. rewrite lookup_empty. discriminate.
    - now apply step_completedOk. }
  intros k u Hu. destruct (H k u Hu) as [H1 H2]. split; [exact H1|].
  intros Hw t Ht. apply includes_not_In. now apply H2.
Qed.

Lemma completed_tasks_distinct_witness :
  reachable (fst (run taskScenario initialBot))
  /\ List.NoDup (completedTasksToday waitingOnTask).
Proof.
  split; [exact taskScenario_reachable|].
  exact (proj1 (completed_tasks_distinct _ taskScenario_reachable "628111@c.us"
                  waitingOnTask taskScenario_state)).
Defined.

(** X11.  [handleSelesai] starts nothing and changes nothing when the
    argument is not a number, when no catalog task has that id, or when the
    id is among the tasks completed today.  Otherwise the record waits on a
    task challenge for the task found, whose id is the number given, the
    token is the generated one, and a timer with the next free id is
    scheduled for the task's duration in minutes; balance, claim flag and
    completed tasks are as before. *)
Theorem task_start_rules
    (from : string) (u : User) (arg : option string) (e : Env) (b : AltoBot) :
  (Js.parseInt arg = None ->
   handleSelesai from u arg e b = (b, [Reply from RInvalidTaskId]))
  /\ (forall n,
        Js.parseInt arg = Some n ->
        (findTask n (tasks b) = None ->
         handleSelesai from u arg e b = (b, [Reply from RTaskNotFound]))
        /\ (forall t,
              findTask n (tasks b) = Some t ->
              (In n (completedTasksToday u) ->
               handleSelesai from u arg e b = (b, [Reply from RTaskAlreadyDone]))
              /\ (~ In n (completedTasksToday u) ->
                  let b' := fst (handleSelesai from u arg e b) in
                  let token := generateCaptcha 6 (random36 e) in
                  id t = n /\ In t (tasks b)
                  /\ users b' !! from
                     = Some (setCaptchaState
                               {| isWaiting := true; type := Some TypeTask;
                                  task := Some t; answer := Some token;
                                  timerId := Some (nextTimer b) |} u)
                  /\ timers b'
                     = <[nextTimer b := {| timerFrom := from; timerTaskId := n;
                                           delayMs := duration t * 60000 |}]>
                         (timers b)
                  /\ nextTimer b' = Pos.succ (nextTimer b)
                  /\ tasks b' = tasks b /\ config b' = config b
                  /\ snd (handleSelesai from u arg e b)
                     = [WriteUsers (users b');
                        Reply from (RCaptchaTask (duration t) token)]))).
Proof.
  split.
  - intros Hp. unfold handleSelesai. now rewrite Hp.
  - intros n Hp. split.
    + intros Hf. unfold handleSelesai. now rewrite Hp, Hf.
    + intros t Hf. split.
      * intros Hin. apply includes_In in Hin. unfold handleSelesai.
        now rewrite Hp, Hf, Hin.
      * intros Hni. apply includes_not_In in Hni. unfold handleSelesai.
        rewrite Hp, Hf, Hni. simpl.
        split; [exact (findTask_id _ _ _ Hf)|].
        split; [unfold findTask in Hf; now apply find_some in Hf as [Hf _]|].
        split; [apply lookup_insert_eq|].
        split; [f_equal; f_equal; lia|]. auto.
Qed.

Lemma task_start_rules_witness :
  handleSelesai "628111@c.us" (newUser (today day1)) (Some "7") day1
    (fst (run catalogScenario initialBot))
  = (fst (run catalogScenario initialBot), [Reply "628111@c.us" RTaskNotFound]).
Proof.
  exact (proj1 (proj2 (task_start_rules "628111@c.us" (newUser (today day1))
                         (Some "7") day1 (fst (run catalogScenario initialBot)))
                  7 eq_refl) eq_refl).
Defined.

(** X12.  After a task challenge has been answered correctly the task's id
    is among the completed tasks, and asking for that task again starts
    nothing and changes nothing; after the next daily reset the task can be
    started again if it is still in the catalog. *)
Theorem task_once_a_day
    (from input : string) (u : User) (t : Task) (a : string)
    (arg : option string) (e e2 : Env) (b : AltoBot) :
  isWaiting (captchaState u) = true ->
  type (captchaState u) = Some TypeTask ->
  task (captchaState u) = Some t ->
  answer (captchaState u) = Some a ->
  String.eqb (Js.toUpperCase (Js.trim input)) a = true ->
  Js.parseInt arg = Some (id t) ->
  let b1 := fst (verifyCaptcha from u input e b) in
  exists u1,
    users b1 !! from = Some u1
    /\ In (id t) (completedTasksToday u1)
    /\ fst (handleSelesai from u1 arg e2 b1) = b1
    /\ (snd (handleSelesai from u1 arg e2 b1) = [Reply from RTaskAlreadyDone]
        \/ snd (handleSelesai from u1 arg e2 b1) = [Reply from RTaskNotFound])
    /\ (forall d t',
          findTask (id t) (tasks b1) = Some t' ->
          exists w,
            users (fst (handleSelesai from (dailyReset d u1) arg e2 b1)) !! from
            = Some w
            /\ isWaiting (captchaState w) = true
            /\ task (captchaState w) = Some t').
Proof.
  intros Hw Hty Ht Ha Heq Hp b1. subst b1.
  unfold verifyCaptcha. rewrite Ha, Heq, Hty, Ht. simpl.
  rewrite lookup_insert_eq. eexists. split; [reflexivity|]. simpl.
  assert (Hin : In (id t) (completedTasksToday u ++ [id t])%list)
    by (apply in_or_app; right; now left).
  split; [exact Hin|].
  apply includes_In in Hin.
  unfold handleSelesai. rewrite Hp. simpl.
  destruct (findTask (id t) (tasks (clearTimeout (timerId (captchaState u)) b)))
    as [t'|] eqn:Hf.
  - rewrite Hin. simpl. split; [reflexivity|]. split; [now left|].
    intros d t0 [= <-]. simpl. rewrite lookup_insert_eq. eexists.
    split; [reflexivity|]. now split.
  - simpl. split; [reflexivity|]. split; [now right|]. discriminate.
Qed.

Lemma task_once_a_day_witness :
  exists u1,
    users (fst (verifyCaptcha "628111@c.us" waitingOnTask sampleToken day1
                  (fst (run taskScenario initialBot)))) !! "628111@c.us" = Some u1
    /\ In 1 (completedTasksToday u1).
Proof.
  destruct (task_once_a_day "628111@c.us" sampleToken waitingOnTask sampleTask
              sampleToken (Some "1") day1 day1 (fst (run taskScenario initialBot))
              eq_refl eq_refl eq_refl eq_refl eq_refl eq_refl)
    as (u1 & Hu1 & Hin & _).
  exists u1. split; [exact Hu1 | exact Hin].
Defined.

(** ** The ledger over one event *)

(** Resolves a lookup after a handler to the record it came from. *)
Ltac origin_cases :=
  repeat case_match; simpl; intros ? ? ?;
  repeat match goal with
    | H : _ !! _ = Some _ |- _ => rewrite lookup_insert_Some in H
    | H : _ !! _ = Some _ |- _ => rewrite lookup_delete_Some in H
    | H : _ \/ _ |- _ => destruct H
    | H : _ /\ _ |- _ => destruct H
    end;
  simplify_eq; eexists; (split; [eassumption|]).

Lemma handleState_keepsDay from u body e b :
  users b !! from = Some u ->
  forall k u', users (fst (handleState from u body e b)) !! k = Some u' ->
  exists u0, users b !! k = Some u0 /\ keepsDay u0 u'.
Proof.
  intros Hu. unfold_handlers. origin_cases; unfold keepsDay; simpl;
    (split; [reflexivity|]); (split; [auto|]); auto.
  all: intros x Hx; apply in_or_app; now left.
Qed.

(** X13.  From one event to the next a record keeps its date, its claim
    flag once set, and every completed task id, unless the event is a
    message of the record's own unblocked sender on another date; in that
    case the record bears the new date afterwards. *)
Theorem day_flags_persist
    (ev : Event) (b : AltoBot) (k : string) (u u' : User) :
  users b !! k = Some u ->
  users (fst (step ev b)) !! k = Some u' ->
  keepsDay u u'
  \/ (exists body e, ev = Message k body e /\ isBlocked u = false
                     /\ lastLogin u <> today e /\ lastLogin u' = today e).
Proof.
  intros Hu Hu'. destruct ev as [from body e|t]; simpl in Hu'.
  - destruct (handleMessage_record (fun _ _ => keepsDay)
                (fun _ _ w => conj eq_refl (conj (fun H => H) (fun _ H => H)))
                handleState_keepsDay _ _ _ _ _ _ _ Hu Hu')
      as [H|(-> & Hb & Hd & H1 & _)]; [now left|].
    right. exists body, e. auto.
  - left. destruct (fireTimer_record _ _ _ _ _ Hu Hu') as [->| ->];
      (split; [reflexivity|]); auto.
Qed.

Lemma day_flags_persist_witness :
  users (fst (run taskScenario initialBot)) !! "628111@c.us" = Some waitingOnTask
  /\ (keepsDay waitingOnTask (setCaptchaState notWaiting waitingOnTask)
      \/ exists body e,
           TimerFires 1%positive = Message "628111@c.us" body e
           /\ isBlocked waitingOnTask = false
           /\ lastLogin waitingOnTask <> today e
           /\ lastLogin (setCaptchaState notWaiting waitingOnTask) = today e).
Proof.
  split; [exact taskScenario_state|].
  apply (day_flags_persist (TimerFires 1%positive)
           (fst (run taskScenario initialBot)) "628111@c.us");
    [exact taskScenario_state | vm_compute; reflexivity].
Defined.

Lemma handleState_balanceMove from u body e b :
  users b !! from = Some u ->
  forall k u', users (fst (handleState from u body e b)) !! k = Some u' ->
  exists u0, users b !! k = Some u0 /\ balanceMove (config b) e u0 u'.
Proof.
  intros Hu. unfold_handlers. origin_cases; unfold balanceMove; simpl;
    first [ left; reflexivity
          | right; left; auto; fail
          | right; right; left; eauto; fail
          | right; right; right; auto ].
Qed.

(** X14.  In one event the balance of a record stays as it is, or grows by
    250 when the record is in a game, or by the bonus of the task of its
    pending challenge, or, on a pending claim, by a reward between the
    bounds of the configuration.  Nothing else moves a balance; so it never
    decreases when the lower bound and the bonus of the pending task are not
    negative. *)
Theorem balance_moves
    (ev : Event) (b : AltoBot) (k : string) (u u' : User) :
  Inv b -> validEvent ev ->
  users b !! k = Some u ->
  users (fst (step ev b)) !! k = Some u' ->
  (balance u' = balance u
   \/ (inMode InGame u = true /\ balance u' = balance u + 250)
   \/ (inMode AwaitingVerification u = true
       /\ exists t, task (captchaState u) = Some t
                    /\ balance u' = balance u + bonus t)
   \/ (inMode AwaitingVerification u = true
       /\ type (captchaState u) = Some TypeClaim
       /\ exists reward,
            min (dailyBonus (config b)) <= reward <= max (dailyBonus (config b))
            /\ balance u' = balance u + reward))
  /\ (0 <= min (dailyBonus (config b)) ->
      (forall t, task (captchaState u) = Some t -> 0 <= bonus t) ->
      balance u <= balance u').
Proof.
  intros HI Hv Hu Hu'.
  assert (HM : exists e, validEnv e
                 /\ (balanceMove (config b) e u u'
                     \/ balanceMove (config b) e (dailyReset (today e) u) u')).
  { destruct ev as [from body e|t]; simpl in Hu', Hv.
    - exists e. split; [exact Hv|].
      destruct (handleMessage_record balanceMove (fun _ _ _ => or_introl eq_refl)
                  handleState_balanceMove _ _ _ _ _ _ _ Hu Hu')
        as [H|(_ & _ & _ & H)]; auto.
    - exists (envAt EmptyString). split; [apply validEnv_envAt|]. left. left.
      destruct (fireTimer_record _ _ _ _ _ Hu Hu') as [->| ->]; reflexivity. }
  destruct HM as (e & [H0 H1] & HM).
  assert (HB : balanceMove (config b) e u u') by (destruct HM; assumption).
  clear HM. destruct HI as [_ Hle].
  pose proof (claim_reward_range (random e) _ _ H0 H1 Hle) as Hr.
  unfold inMode. split.
  - destruct HB as [H|[(Hw & Hg & H)|[(Hw & t & Ht & H)|(Hw & Hty & H)]]];
      [now left | right; left; auto | right; right; left; eauto |].
    right. right. right. split; [exact Hw|]. split; [exact Hty|]. eauto.
  - intros Hmin Hbonus.
    destruct HB as [H|[(Hw & Hg & H)|[(Hw & t & Ht & H)|(Hw & Hty & H)]]];
      try lia.
    specialize (Hbonus t Ht). lia.
Qed.

Lemma balance_moves_witness :
  Inv (fst (run claimScenario initialBot))
  /\ exists u',
      users (fst (step (Message "628111@c.us" sampleToken day1)
                    (fst (run claimScenario initialBot)))) !! "628111@c.us" = Some u'
      /\ balance waitingOnClaim <= balance u'.
Proof.
  split; [exact claimScenario_Inv|].
  eexists. split; [vm_compute; reflexivity|].
  apply (proj2 (balance_moves (Message "628111@c.us" sampleToken day1)
                  (fst (run claimScenario initialBot)) "628111@c.us"
                  waitingOnClaim _ claimScenario_Inv (validEnv_envAt _)
                  claimScenario_state ltac:(vm_compute; reflexivity))).
  - vm_compute. discriminate.
  - intros t Ht. discriminate Ht.
Defined.

(** ** Commands that only read *)

(** X15.  The menu, the balance, the owner's contact, the task list and the
    two admin listings answer with one reply, change nothing and write
    nothing; the balance reported is the record's.  When such a command
    arrives on a new date, the daily reset is made in the record in memory
    and no store write follows it. *)
Theorem read_only_commands
    (from body : string) (u : User) (e : Env) (b : AltoBot) (c : Command) :
  selects body c ->
  isReadOnlyCommand c = true ->
  (fst (dispatch from u body e b) = b
   /\ (exists r, snd (dispatch from u body e b) = [Reply from r])
   /\ (c = CmdSaldo ->
       snd (dispatch from u body e b) = [Reply from (RSaldo (balance u))]))
  /\ (users b !! from = Some u -> isBlocked u = false ->
      lastLogin u <> today e -> inMode Idle u = true ->
      users (fst (handleMessage from body e b)) !! from
      = Some (dailyReset (today e) u)
      /\ existsb isWrite (snd (handleMessage from body e b)) = false).
Proof.
  intros Hs Hro.
  assert (HD : forall w b0,
             fst (dispatch from w body e b0) = b0
             /\ (exists r, snd (dispatch from w body e b0) = [Reply from r])
             /\ (c = CmdSaldo ->
                 snd (dispatch from w body e b0) = [Reply from (RSaldo (balance w))])).
  { intros w b0. destruct Hs as [Hs Hc]. unfold dispatch. rewrite Hs, Hc. simpl.
    destruct c; try discriminate Hro; unfold_handlers;
      repeat case_match; simplify_eq; simpl;
      (split; [reflexivity|]); (split; [eexists; reflexivity|]);
      intros; try discriminate; reflexivity. }
  split; [apply HD|].
  intros Hu Hb Hd Hm.
  rewrite (handleMessage_new_day _ _ _ _ _ Hu Hb Hd).
  unfold inMode in Hm. apply andb_true_iff in Hm as [Hw Hg].
  apply negb_true_iff in Hw, Hg. unfold handleState. simpl. rewrite Hw, Hg.
  destruct (HD (dailyReset (today e) u) (setUser from (dailyReset (today e) u) b))
    as (H1 & [r H2] & _).
  rewrite H1, H2. split; [apply lookup_insert_eq | reflexivity].
Qed.

Lemma read_only_commands_witness :
  users (fst (handleMessage "628111@c.us" "/saldo" day2
                (setUser "628111@c.us"
                   (setClaimedDailyBonus true (newUser (today day1))) initialBot)))
    !! "628111@c.us"
  = Some (dailyReset (today day2) (setClaimedDailyBonus true (newUser (today day1))))
  /\ existsb isWrite
       (snd (handleMessage "628111@c.us" "/saldo" day2
               (setUser "628111@c.us"
                  (setClaimedDailyBonus true (newUser (today day1))) initialBot)))
     = false.
Proof.
  assert (Hd : lastLogin (setClaimedDailyBonus true (newUser (today day1)))
               <> today day2) by discriminate.
  exact (proj2 (read_only_commands "628111@c.us" "/saldo"
                  (setClaimedDailyBonus true (newUser (today day1))) day2
                  (setUser "628111@c.us"
                     (setClaimedDailyBonus true (newUser (today day1))) initialBot)
                  CmdSaldo (conj eq_refl eq_refl) eq_refl)
           (lookup_insert_eq _ _ _) eq_refl Hd eq_refl).
Defined.

(** ** Starting a game *)



(** ** The daily claim, from the request to the credit *)

Lemma isWhiteSpace_upperChar c : Js.isWhiteSpace (Js.upperChar c) = Js.isWhiteSpace c.
Proof. destruct c as [[] [] [] [] [] [] [] []]; reflexivity. Qed.

Lemma isWhiteSpace_lowerChar c : Js.isWhiteSpace (Js.lowerChar c) = Js.isWhiteSpace c.
Proof. destruct c as [[] [] [] [] [] [] [] []]; reflexivity. Qed.

Lemma hasNoWhiteSpace_toUpperCase s :
  hasNoWhiteSpace (Js.toUpperCase s) = hasNoWhiteSpace s.
Proof.
  induction s as [|c s IH]; simpl; [reflexivity|].
  now rewrite isWhiteSpace_upperChar, <- IH.
Qed.

Lemma hasNoWhiteSpace_toLowerCase s :
  hasNoWhiteSpace (Js.toLowerCase s) = hasNoWhiteSpace s.
Proof.
  induction s as [|c s IH]; simpl; [reflexivity|].
  now rewrite isWhiteSpace_lowerChar, <- IH.
Qed.

Lemma hasNoWhiteSpace_substring s n m :
  hasNoWhiteSpace s = true -> hasNoWhiteSpace (String.substring n m s) = true.
Proof.
  revert n m. induction s as [|c s IH]; intros n m H.
  - destruct n, m; reflexivity.
  - simpl in H. apply andb_true_iff in H as [Hc Hs].
    destruct n as [|n]; simpl.
    + destruct m as [|m]; simpl; [reflexivity|]. now rewrite Hc, IH.
    + now apply IH.
Qed.

Lemma trimEnd_noWhiteSpace s : hasNoWhiteSpace s = true -> Js.trimEnd s = s.
Proof.
  induction s as [|c s IH]; simpl; [reflexivity|].
  intros H. apply andb_true_iff in H as [Hc Hs]. rewrite (IH Hs).
  apply negb_true_iff in Hc. rewrite Hc. now destruct s.
Qed.

Lemma trim_noWhiteSpace s : hasNoWhiteSpace s = true -> Js.trim s = s.
Proof.
  intros H. unfold Js.trim.
  assert (Hs : Js.trimStart s = s).
  { destruct s as [|c s]; [reflexivity|]. simpl in *.
    apply andb_true_iff in H as [Hc _]. apply negb_true_iff in Hc. now rewrite Hc. }
  rewrite Hs. now apply trimEnd_noWhiteSpace.
Qed.

Lemma generateCaptcha_noWhiteSpace n r :
  hasNoWhiteSpace r = true -> hasNoWhiteSpace (generateCaptcha n r) = true.
Proof.
  intros H. unfold generateCaptcha, Js.substring.
  rewrite hasNoWhiteSpace_toUpperCase. now apply hasNoWhiteSpace_substring.
Qed.

(** X17.  An idle, unblocked sender who has not claimed today asks for the
    bonus and gets the generated token; when [Math.random().toString(36)]
    holds no white space (it is made of digits, letters and a point), a
    reply with the token as shown or in lower case, on the same date, is
    accepted: the balance grows by a reward between the bounds of the
    configuration, the claim flag is set and the sender is idle again. *)
Theorem claim_round_trip
    (from body reply : string) (u : User) (e1 e2 : Env) (b : AltoBot) :
  Inv b ->
  users b !! from = Some u ->
  isBlocked u = false ->
  inMode Idle u = true ->
  claimedDailyBonus u = false ->
  lastLogin u = today e1 -> today e2 = today e1 ->
  selects body CmdKlaim ->
  hasNoWhiteSpace (random36 e1) = true ->
  validEnv e2 ->
  let token := generateCaptcha 6 (random36 e1) in
  reply = token \/ reply = Js.toLowerCase token ->
  let b1 := fst (handleMessage from body e1 b) in
  let b2 := fst (handleMessage from reply e2 b1) in
  snd (handleMessage from body e1 b)
  = [WriteUsers (users b1); Reply from (RCaptchaClaim token)]
  /\ exists u2 reward,
      users b2 !! from = Some u2
      /\ min (dailyBonus (config b)) <= reward <= max (dailyBonus (config b))
      /\ balance u2 = balance u + reward
      /\ claimedDailyBonus u2 = true
      /\ inMode Idle u2 = true
      /\ repliesOf (snd (handleMessage from reply e2 b1))
         = [RCaptchaOk; RClaimReward reward (balance u2); RMenu (isAdmin u)].
Proof.
  intros HI Hu Hb Hm Hc Hd1 Hd2 Hs Hns [H0 H1] token Hreply b1 b2.
  pose proof (generateCaptcha_noWhiteSpace 6 _ Hns) as Htok. fold token in Htok.
  assert (Heq : String.eqb (Js.toUpperCase (Js.trim reply)) token = true).
  { apply String.eqb_eq. destruct Hreply as [->| ->].
    - rewrite (trim_noWhiteSpace _ Htok). apply toUpperCase_idem.
    - rewrite trim_noWhiteSpace by now rewrite hasNoWhiteSpace_toLowerCase.
      rewrite toUpperCase_toLowerCase. apply toUpperCase_idem. }
  assert (E1 : handleMessage from body e1 b = handleClaim from u e1 b).
  { rewrite (handleMessage_idle_same_day _ _ _ _ _ Hu Hb Hd1 Hm).
    apply (dispatch_selects _ _ _ _ _ _ Hs). }
  subst b2 b1. rewrite E1. unfold handleClaim. rewrite Hc. simpl.
  split; [reflexivity|].
  set (u1 := setCaptchaState _ u). set (bb := setUser from u1 b).
  assert (Hu1 : users bb !! from = Some u1) by apply lookup_insert_eq.
  assert (Hd : lastLogin u1 = today e2) by (simpl; congruence).
  rewrite (handleMessage_same_day from reply e2 bb u1 Hu1 Hb Hd).
  unfold handleState. simpl. unfold verifyCaptcha. simpl. fold token. rewrite Heq.
  simpl. rewrite lookup_insert_eq.
  unfold inMode in Hm. apply andb_true_iff in Hm as [_ Hg].
  eexists. eexists. split; [reflexivity|].
  split; [exact (claim_reward_range (random e2) _ _ H0 H1 (proj2 HI))|].
  split; [reflexivity|]. split; [reflexivity|].
  split; [unfold inMode; simpl; exact Hg | reflexivity].
Qed.

Lemma claim_round_trip_witness :
  exists u2 reward,
    users (fst (handleMessage "628111@c.us" "k3x9qz" day1
                  (fst (handleMessage "628111@c.us" "/klaim" day1
                          (setUser "628111@c.us" (newUser (today day1)) initialBot)))))
      !! "628111@c.us" = Some u2
    /\ 100 <= reward <= 500 /\ balance u2 = 0 + reward.
Proof.
  assert (HI : Inv (setUser "628111@c.us" (newUser (today day1)) initialBot)).
  { apply Inv_setUser; [apply Inv_initialBot | reflexivity]. }
  destruct (claim_round_trip "628111@c.us" "/klaim" "k3x9qz" (newUser (today day1))
              day1 day1 (setUser "628111@c.us" (newUser (today day1)) initialBot)
              HI (lookup_insert_eq _ _ _) eq_refl eq_refl eq_refl eq_refl eq_refl
              (conj eq_refl eq_refl) eq_refl (validEnv_envAt _)
              (or_intror eq_refl))
    as (_ & u2 & reward & Hu2 & Hr & Hbal & _).
  exists u2, reward. split; [exact Hu2|]. split; [exact Hr | exact Hbal].
Defined.

(** ** The tasks on offer *)

(** X18.  [handleListAvailableTasks] changes nothing and offers, in catalog
    order, exactly the catalog tasks whose id is not among the record's
    completed tasks; when there is none it says so.  A task just credited is
    therefore no longer offered to that record. *)
Theorem available_tasks (from : string) (u : User) (b : AltoBot) :
  exists offered,
    offered = List.filter (fun t => negb (includes (id t) (completedTasksToday u)))
                (tasks b)
    /\ (forall t, In t offered
          <-> In t (tasks b) /\ ~ In (id t) (completedTasksToday u))
    /\ handleListAvailableTasks from u b
       = (b, [Reply from (match offered with
                          | [] => RNoAvailableTasks
                          | _ => RAvailableTasks offered
                          end)])
    /\ (forall t x,
          let u' := setCompletedTasksToday (completedTasksToday u ++ [id t])%list
                      (setBalance x (setCaptchaState notWaiting u)) in
          forall l, snd (handleListAvailableTasks from u' b)
                    = [Reply from (RAvailableTasks l)] -> ~ In t l).
Proof.
  eexists. split; [reflexivity|]. split; [|split].
  - intros t. rewrite filter_In, negb_true_iff, includes_not_In. reflexivity.
  - unfold handleListAvailableTasks. now destruct (List.filter _ _).
  - intros t x u' l. unfold handleListAvailableTasks.
    destruct (List.filter _ (tasks b)) as [|t0 r] eqn:E; simpl; [discriminate|].
    intros [= <-]. rewrite <- E. rewrite filter_In, negb_true_iff, includes_not_In.
    intros [_ Hn]. apply Hn. simpl. apply in_or_app. right. now left.
Qed.

(** ** Conversation *)

(** X19.  A text that does not start with the command prefix goes to the AI
    collaborator: the sender's chat session is registered, the reply is the
    trimmed answer or the fixed failure text, and records, catalog,
    configuration and timers are untouched.  [/clear] removes the sender's
    session and no other. *)
Theorem conversation_and_clear
    (from body : string) (u : User) (e : Env) (b : AltoBot) :
  (Js.startsWith (Js.trim (Js.toLowerCase body)) "/" = false ->
   let b' := fst (dispatch from u body e b) in
   users b' = users b /\ tasks b' = tasks b /\ config b' = config b
   /\ timers b' = timers b
   /\ (from ∈ userChats b')
   /\ (forall k, k <> from -> (k ∈ userChats b' <-> k ∈ userChats b))
   /\ snd (dispatch from u body e b)
      = [Reply from (match ai e with
                     | AiResult text => RAiText (Js.trim text)
                     | _ => RAiFailed
                     end)])
  /\ (selects body CmdClear ->
      let b' := fst (dispatch from u body e b) in
      users b' = users b /\ tasks b' = tasks b /\ config b' = config b
      /\ timers b' = timers b
      /\ (from ∉ userChats b')
      /\ (forall k, k <> from -> (k ∈ userChats b' <-> k ∈ userChats b))
      /\ snd (dispatch from u body e b) = [Reply from RChatCleared]).
Proof.
  split.
  - intros Hs b'. subst b'. unfold dispatch, getAiResponse. rewrite Hs. simpl.
    assert (Hin : from ∈ ({[from]} ∪ userChats b : gset string)).
    { apply elem_of_union. left. now apply elem_of_singleton. }
    assert (Hother : forall k, k <> from ->
              (k ∈ ({[from]} ∪ userChats b : gset string) <-> k ∈ userChats b)).
    { intros k Hk. rewrite elem_of_union, elem_of_singleton.
      split; [intros [?|?]; [congruence | assumption] | auto]. }
    destruct (ai e); simpl; repeat (split; [reflexivity|]); auto.
  - intros [Hs Hc] b'. subst b'. unfold dispatch. rewrite Hs, Hc. simpl.
    repeat (split; [reflexivity|]).
    split; [|split; [|reflexivity]].
    + rewrite elem_of_difference, elem_of_singleton. intros [_ H]. now apply H.
    + intros k Hk. rewrite elem_of_difference, elem_of_singleton.
      split; [now intros [? _] | intros; split; [assumption | congruence]].
Qed.

Lemma conversation_and_clear_witness :
  "628111@c.us" ∈ userChats (fst (dispatch "628111@c.us" (newUser (today day1))
                                    "halo bot" day1 initialBot)).
Proof.
  exact (proj1 (proj2 (proj2 (proj2 (proj2
    (proj1 (conversation_and_clear "628111@c.us" "halo bot"
              (newUser (today day1)) day1 initialBot) eq_refl)))))).
Defined.

(** ** Modes come before commands *)

(** X20.  While a known, unblocked sender awaits verification or is in a
    game, no message of that sender is dispatched as a command, whatever it
    says and whether the sender is an admin or not: the catalog, the
    configuration, the chat sessions and every other record stay as they
    are. *)
Theorem modes_intercept_commands
    (from body : string) (u : User) (e : Env) (b : AltoBot) :
  users b !! from = Some u ->
  isBlocked u = false ->
  inMode AwaitingVerification u = true \/ inMode InGame u = true ->
  let b' := fst (handleMessage from body e b) in
  tasks b' = tasks b /\ config b' = config b /\ userChats b' = userChats b
  /\ (forall k, k <> from -> users b' !! k = users b !! k)
  /\ (handleMessage from body e b
      = verifyCaptcha from (if String.eqb (lastLogin u) (today e) then u
                            else dailyReset (today e) u) body e
          (if String.eqb (lastLogin u) (today e) then b
           else setUser from (dailyReset (today e) u) b)
      \/ handleMessage from body e b
         = handleGameInput from (if String.eqb (lastLogin u) (today e) then u
                                 else dailyReset (today e) u) body
             (if String.eqb (lastLogin u) (today e) then b
              else setUser from (dailyReset (today e) u) b)).
Proof.
  intros Hu Hb Hm b'. subst b'.
  assert (HS : forall w b0,
             isWaiting (captchaState w) = isWaiting (captchaState u) ->
             inGame w = inGame u ->
             (tasks (fst (handleState from w body e b0)) = tasks b0
              /\ config (fst (handleState from w body e b0)) = config b0
              /\ userChats (fst (handleState from w body e b0)) = userChats b0
              /\ (forall k, k <> from ->
                    users (fst (handleState from w body e b0)) !! k = users b0 !! k))
             /\ (handleState from w body e b0 = verifyCaptcha from w body e b0
                 \/ handleState from w body e b0 = handleGameInput from w body b0)).
  { intros w b0 Hw Hg. unfold inMode in Hm. unfold handleState. rewrite Hw, Hg.
    destruct (isWaiting (captchaState u)).
    - split; [|now left]. unfold verifyCaptcha, clearTimeout.
      repeat case_match; simpl; repeat (split; [reflexivity|]);
        intros k Hk; rewrite ?lookup_insert_ne by congruence; reflexivity.
    - destruct Hm as [Hm|Hm]; [discriminate|]. rewrite Hm.
      split; [|now right]. unfold handleGameInput.
      repeat case_match; simpl; repeat (split; [reflexivity|]);
        intros k Hk; rewrite ?lookup_insert_ne by congruence; reflexivity. }
  destruct (String.eqb (lastLogin u) (today e)) eqn:Hd.
  - apply String.eqb_eq in Hd. rewrite (handleMessage_same_day _ _ _ _ _ Hu Hb Hd).
    destruct (HS u b eq_refl eq_refl) as [(H1 & H2 & H3 & H4) H5]. auto 6.
  - apply String.eqb_neq in Hd. rewrite (handleMessage_new_day _ _ _ _ _ Hu Hb Hd).
    destruct (HS (dailyReset (today e) u) (setUser from (dailyReset (today e) u) b)
                eq_refl eq_refl) as [(H1 & H2 & H3 & H4) H5].
    split; [exact H1|]. split; [exact H2|]. split; [exact H3|]. split; [|exact H5].
    intros k Hk. rewrite (H4 k Hk). simpl. now rewrite lookup_insert_ne.
Qed.

Lemma modes_intercept_commands_witness :
  tasks (fst (handleMessage "628999@c.us" "/hapustugas 1" day1
                (setUser "628999@c.us" (setGame true 51 adminUser)
                   (fst (run taskScenario initialBot)))))
  = tasks (fst (run taskScenario initialBot)).
Proof.
  exact (proj1 (modes_intercept_commands "628999@c.us" "/hapustugas 1"
                  (setGame true 51 adminUser) day1
                  (setUser "628999@c.us" (setGame true 51 adminUser)
                     (fst (run taskScenario initialBot)))
                  (lookup_insert_eq _ _ _) eq_refl (or_intror eq_refl))).
Defined.
